(** * Skribidi example testbed (example/example_testbed.c)

    A shallow embedding of the input handlers, the IME rectangle publisher,
    the teardown path and the per-line caret-boundary visualisation of the
    testbed, together with the properties of the natural-language
    specification that concern them. *)

From Stdlib Require Import ZArith List Bool String Lia.
From Stdlib Require Import QArith Qabs.
From Stdlib Require Import Floats.SpecFloat.
Import ListNotations.

Local Open Scope Z_scope.

(** ** Arithmetic of the C [float] type

    The handlers only add, subtract, multiply, divide and compare floats and
    cast them to [int32_t].  The embedding is written against this interface
    and run on [binary32], the IEEE-754 single precision arithmetic the
    compiled program uses. *)

Class FloatOps (F : Type) : Type := {
  fadd : F -> F -> F;
  fsub : F -> F -> F;
  fmul : F -> F -> F;
  fdiv : F -> F -> F;
  fltb : F -> F -> bool;
  (** conversion of an [int] (and integer valued literals such as [40.f]) *)
  float_of_int : Z -> F;
  (** decimal literal [n/d], e.g. [0.2f] is [float_of_decimal 2 10] *)
  float_of_decimal : Z -> Z -> F;
  (** the cast [(int32_t)f] *)
  int32_of_float : F -> Z
}.

Declare Scope flt_scope.
Delimit Scope flt_scope with flt.
Infix "+" := fadd : flt_scope.
Infix "-" := fsub : flt_scope.
Infix "*" := fmul : flt_scope.
Infix "/" := fdiv : flt_scope.
Infix "<?" := fltb : flt_scope.

Definition INT32_MIN : Z := - 2 ^ 31.
Definition INT32_MAX : Z := 2 ^ 31 - 1.

Definition in_int32 (n : Z) : bool := (INT32_MIN <=? n) && (n <=? INT32_MAX).

(** A float to integer conversion whose truncated value does not fit the
    destination is undefined in C; the model returns what the x86
    [cvttss2si] instruction produces there, the "integer indefinite"
    value [INT32_MIN]. *)
Definition int32_or_indefinite (n : Z) : Z :=
  if in_int32 n then n else INT32_MIN.

Module B32.

Definition prec : Z := 24.
Definition emax : Z := 128.

Definition of_Z (z : Z) : spec_float := binary_normalize prec emax z 0 false.

Definition add := SFadd prec emax.
Definition sub := SFsub prec emax.
Definition mul := SFmul prec emax.
Definition div := SFdiv prec emax.

(** magnitude of [m * 2^e] with the fraction discarded *)
Definition trunc_mag (m : positive) (e : Z) : Z :=
  match e with
  | Z0 => Zpos m
  | Zpos p => Zpos m * 2 ^ Zpos p
  | Zneg p => Zpos m / 2 ^ Zpos p
  end.

(** rounding toward zero to an integer; [None] for infinities and NaN *)
Definition trunc (f : spec_float) : option Z :=
  match f with
  | S754_zero _ => Some 0
  | S754_finite s m e => Some (if s then - trunc_mag m e else trunc_mag m e)
  | S754_infinity _ | S754_nan => None
  end.

Definition to_int32 (f : spec_float) : Z :=
  match trunc f with
  | Some n => int32_or_indefinite n
  | None => INT32_MIN
  end.

(** the rational a finite float denotes *)
Definition value (f : spec_float) : Q :=
  match f with
  | S754_finite s m e =>
      let mag := match e with
                 | Z0 => inject_Z (Zpos m)
                 | Zpos p => inject_Z (Zpos m * 2 ^ Zpos p)
                 | Zneg p => Qmake (Zpos m) (2 ^ p)%positive
                 end in
      if s then Qopp mag else mag
  | _ => 0%Q
  end.

End B32.

#[export] Instance binary32 : FloatOps spec_float := {|
  fadd := B32.add;
  fsub := B32.sub;
  fmul := B32.mul;
  fdiv := B32.div;
  fltb := SFltb;
  float_of_int := B32.of_Z;
  float_of_decimal := fun n d => B32.div (B32.of_Z n) (B32.of_Z d);
  int32_of_float := B32.to_int32
|}.

(** ** Constants of the platform layer (GLFW/glfw3.h) *)

Definition GLFW_RELEASE : Z := 0.
Definition GLFW_PRESS : Z := 1.
Definition GLFW_REPEAT : Z := 2.

Definition GLFW_MOD_SHIFT : Z := 1.
Definition GLFW_MOD_CONTROL : Z := 2.

Definition GLFW_MOUSE_BUTTON_LEFT : Z := 0.
Definition GLFW_MOUSE_BUTTON_RIGHT : Z := 1.

Definition GLFW_KEY_A : Z := 65.
Definition GLFW_KEY_C : Z := 67.
Definition GLFW_KEY_V : Z := 86.
Definition GLFW_KEY_X : Z := 88.
Definition GLFW_KEY_Z : Z := 90.
Definition GLFW_KEY_ESCAPE : Z := 256.
Definition GLFW_KEY_ENTER : Z := 257.
Definition GLFW_KEY_TAB : Z := 258.
Definition GLFW_KEY_BACKSPACE : Z := 259.
Definition GLFW_KEY_DELETE : Z := 261.
Definition GLFW_KEY_RIGHT : Z := 262.
Definition GLFW_KEY_LEFT : Z := 263.
Definition GLFW_KEY_DOWN : Z := 264.
Definition GLFW_KEY_UP : Z := 265.
Definition GLFW_KEY_HOME : Z := 268.
Definition GLFW_KEY_END : Z := 269.
Definition GLFW_KEY_F7 : Z := 296.
Definition GLFW_KEY_F8 : Z := 297.
Definition GLFW_KEY_F9 : Z := 298.
Definition GLFW_KEY_F10 : Z := 299.

(** C truth value of an [int] expression such as [mods & GLFW_MOD_CONTROL] *)
Definition truthy (z : Z) : bool := negb (z =? 0).

(** ** Data of the editor interface (skb_editor.h, skb_layout.h) *)

(** Modelled from the spec: the modifier mask handed to the editor is a bit
    set {SHIFT, CONTROL}; the enum itself is declared in skb_editor.h, which
    is not part of the example sources. *)
Definition SKB_MOD_SHIFT : Z := 1.
Definition SKB_MOD_CONTROL : Z := 2.

Inductive skb_editor_key_t : Type :=
| SKB_KEY_LEFT | SKB_KEY_RIGHT | SKB_KEY_UP | SKB_KEY_DOWN
| SKB_KEY_HOME | SKB_KEY_END | SKB_KEY_BACKSPACE | SKB_KEY_DELETE
| SKB_KEY_ENTER.

(** The order is the one of the [affinity_str] table of [testbed_on_update]. *)
Inductive skb_caret_affinity_t : Type :=
| SKB_AFFINITY_NONE
| SKB_AFFINITY_TRAILING
| SKB_AFFINITY_LEADING
| SKB_AFFINITY_SOL
| SKB_AFFINITY_EOL.

Definition affinity_eqb (a b : skb_caret_affinity_t) : bool :=
  match a, b with
  | SKB_AFFINITY_NONE, SKB_AFFINITY_NONE
  | SKB_AFFINITY_TRAILING, SKB_AFFINITY_TRAILING
  | SKB_AFFINITY_LEADING, SKB_AFFINITY_LEADING
  | SKB_AFFINITY_SOL, SKB_AFFINITY_SOL
  | SKB_AFFINITY_EOL, SKB_AFFINITY_EOL => true
  | _, _ => false
  end.

Definition affinity_str (a : skb_caret_affinity_t) : string :=
  match a with
  | SKB_AFFINITY_NONE => "-"
  | SKB_AFFINITY_TRAILING => "TR"
  | SKB_AFFINITY_LEADING => "LE"
  | SKB_AFFINITY_SOL => "SOL"
  | SKB_AFFINITY_EOL => "EOL"
  end.

Record skb_text_position_t : Type := {
  offset : Z;
  affinity : skb_caret_affinity_t
}.

Record skb_text_selection_t : Type := {
  start_pos : skb_text_position_t;
  end_pos : skb_text_position_t
}.

Record skb_visual_caret_t (F : Type) : Type := {
  vc_x : F;
  vc_y : F;
  vc_width : F;
  vc_height : F;
  vc_direction : Z
}.
Arguments vc_x {F}.
Arguments vc_y {F}.
Arguments vc_width {F}.
Arguments vc_height {F}.
Arguments vc_direction {F}.

Record skb_rect2i_t : Type := {
  rect_x : Z;
  rect_y : Z;
  rect_width : Z;
  rect_height : Z
}.

Record skb_vec2_t (F : Type) : Type := { vec_x : F; vec_y : F }.
Arguments vec_x {F}.
Arguments vec_y {F}.

(** Modelled from the spec: the three events the IME layer (ime.h, not part
    of the example sources) delivers to its handler. *)
Inductive ime_event_t : Type :=
| IME_EVENT_COMPOSITION
| IME_EVENT_COMMIT
| IME_EVENT_CANCEL.

(** The commands and queries of the editor that the testbed calls.  The
    editor is a collaborator (skb_editor.c); the testbed is verified against
    any implementation of this interface.  [E] is the editor's state; every
    command takes the state before and returns the state after the call. *)
Class EditorAPI (F E : Type) : Type := {
  skb_editor_get_current_selection : E -> skb_text_selection_t;
  skb_editor_get_visual_caret : E -> skb_text_position_t -> skb_visual_caret_t F;
  skb_editor_get_selection_text_utf32_count : E -> skb_text_selection_t -> Z;
  skb_editor_get_selection_text_utf8 : E -> skb_text_selection_t -> string;
  skb_editor_set_composition_utf32 : E -> list Z -> Z -> E;
  skb_editor_commit_composition_utf32 : E -> list Z -> E;
  skb_editor_clear_composition : E -> E;
  skb_editor_paste_utf8 : E -> option string -> E;
  skb_editor_undo : E -> E;
  skb_editor_redo : E -> E;
  skb_editor_process_key_pressed : E -> skb_editor_key_t -> Z -> E;
  skb_editor_select_all : E -> E;
  skb_editor_select_none : E -> E;
  skb_editor_insert_codepoint : E -> Z -> E;
  skb_editor_cut : E -> E;
  skb_editor_process_mouse_click : E -> F -> F -> Z -> F -> E;
  skb_editor_process_mouse_drag : E -> F -> F -> E
}.

(** ** The view (utils.h) *)

(** Modelled from the spec: [view_t] and the three [view_*] helpers are
    declared in utils.h, which is not part of the example sources.  The
    testbed itself reads and initialises [cx], [cy] and [scale]; the anchor
    is what "startDrag records". *)
Record view_t (F : Type) : Type := {
  cx : F;
  cy : F;
  scale : F;
  anchor_x : F;
  anchor_y : F
}.
Arguments cx {F}.
Arguments cy {F}.
Arguments scale {F}.
Arguments anchor_x {F}.
Arguments anchor_y {F}.

Section View.
Context {F : Type} {FO : FloatOps F}.
Local Open Scope flt_scope.

(** Modelled from the spec: "startDrag(screenPoint) records an anchor". *)
Definition view_drag_start (v : view_t F) (mouse_x mouse_y : F) : view_t F :=
  {| cx := cx v; cy := cy v; scale := scale v;
     anchor_x := mouse_x; anchor_y := mouse_y |}.

(** Modelled from the spec: "updateDrag(screenPoint) shifts center by the
    screen-space delta since the anchor". *)
Definition view_drag_move (v : view_t F) (mouse_x mouse_y : F) : view_t F :=
  {| cx := cx v + (mouse_x - anchor_x v);
     cy := cy v + (mouse_y - anchor_y v);
     scale := scale v;
     anchor_x := anchor_x v; anchor_y := anchor_y v |}.

(** Modelled from the spec: "zoomAt(screenPoint, deltaScale):
    scale' = scale + deltaScale;
    center' = screenPoint - (screenPoint - center) * (scale'/scale)". *)
Definition view_scroll_zoom (v : view_t F) (mouse_x mouse_y delta : F) : view_t F :=
  let scale' := scale v + delta in
  {| cx := mouse_x - (mouse_x - cx v) * (scale' / scale v);
     cy := mouse_y - (mouse_y - cy v) * (scale' / scale v);
     scale := scale';
     anchor_x := anchor_x v; anchor_y := anchor_y v |}.


End View.

(** ** The testbed context and the outside world *)

(** [testbed_context_t] without the handles of collaborators that carry no
    state of the testbed's own (font collection, temp allocator, renderer). *)
Record testbed_context_t (F E : Type) : Type := {
  editor : E;
  allow_char : bool;
  view : view_t F;
  drag_view : bool;
  drag_text : bool;
  atlas_scale : F;
  show_glyph_details : bool;
  show_caret_details : bool;
  show_baseline_details : bool
}.
Arguments editor {F E}.
Arguments allow_char {F E}.
Arguments view {F E}.
Arguments drag_view {F E}.
Arguments drag_text {F E}.
Arguments atlas_scale {F E}.
Arguments show_glyph_details {F E}.
Arguments show_caret_details {F E}.
Arguments show_baseline_details {F E}.

(** Calls into the platform, the IME layer and the allocators, in the order
    the program makes them. *)
Inductive call : Type :=
| ime_set_input_rect (r : skb_rect2i_t)
| ime_cancel
| ime_set_handler (registered : bool)
| glfwSetClipboardString (text : string)
| glfwSetWindowShouldClose
| skb_editor_destroy
| skb_font_collection_destroy
| skb_temp_alloc_destroy
| memset_ctx
| skb_free_ctx.

Record machine (F E : Type) : Type := {
  ctx : testbed_context_t F E;
  (** the system clipboard; [None] when it holds no text *)
  clipboard : option string;
  calls : list call
}.
Arguments ctx {F E}.
Arguments clipboard {F E}.
Arguments calls {F E}.

Section Testbed.
Context {F : Type} {FO : FloatOps F} {E : Type} {ED : EditorAPI F E}.

Abbreviation context := (testbed_context_t F E).
Abbreviation state := (machine F E).

(** *** Field updates *)

Definition set_editor (e : E) (c : context) : context :=
  {| editor := e; allow_char := allow_char c; view := view c;
     drag_view := drag_view c; drag_text := drag_text c;
     atlas_scale := atlas_scale c;
     show_glyph_details := show_glyph_details c;
     show_caret_details := show_caret_details c;
     show_baseline_details := show_baseline_details c |}.

Definition set_allow_char (b : bool) (c : context) : context :=
  {| editor := editor c; allow_char := b; view := view c;
     drag_view := drag_view c; drag_text := drag_text c;
     atlas_scale := atlas_scale c;
     show_glyph_details := show_glyph_details c;
     show_caret_details := show_caret_details c;
     show_baseline_details := show_baseline_details c |}.

Definition set_view (v : view_t F) (c : context) : context :=
  {| editor := editor c; allow_char := allow_char c; view := v;
     drag_view := drag_view c; drag_text := drag_text c;
     atlas_scale := atlas_scale c;
     show_glyph_details := show_glyph_details c;
     show_caret_details := show_caret_details c;
     show_baseline_details := show_baseline_details c |}.

Definition set_drag_view (b : bool) (c : context) : context :=
  {| editor := editor c; allow_char := allow_char c; view := view c;
     drag_view := b; drag_text := drag_text c;
     atlas_scale := atlas_scale c;
     show_glyph_details := show_glyph_details c;
     show_caret_details := show_caret_details c;
     show_baseline_details := show_baseline_details c |}.

Definition set_drag_text (b : bool) (c : context) : context :=
  {| editor := editor c; allow_char := allow_char c; view := view c;
     drag_view := drag_view c; drag_text := b;
     atlas_scale := atlas_scale c;
     show_glyph_details := show_glyph_details c;
     show_caret_details := show_caret_details c;
     show_baseline_details := show_baseline_details c |}.

Definition set_atlas_scale (a : F) (c : context) : context :=
  {| editor := editor c; allow_char := allow_char c; view := view c;
     drag_view := drag_view c; drag_text := drag_text c;
     atlas_scale := a;
     show_glyph_details := show_glyph_details c;
     show_caret_details := show_caret_details c;
     show_baseline_details := show_baseline_details c |}.

Definition set_show_glyph_details (b : bool) (c : context) : context :=
  {| editor := editor c; allow_char := allow_char c; view := view c;
     drag_view := drag_view c; drag_text := drag_text c;
     atlas_scale := atlas_scale c;
     show_glyph_details := b;
     show_caret_details := show_caret_details c;
     show_baseline_details := show_baseline_details c |}.

Definition set_show_caret_details (b : bool) (c : context) : context :=
  {| editor := editor c; allow_char := allow_char c; view := view c;
     drag_view := drag_view c; drag_text := drag_text c;
     atlas_scale := atlas_scale c;
     show_glyph_details := show_glyph_details c;
     show_caret_details := b;
     show_baseline_details := show_baseline_details c |}.

Definition set_show_baseline_details (b : bool) (c : context) : context :=
  {| editor := editor c; allow_char := allow_char c; view := view c;
     drag_view := drag_view c; drag_text := drag_text c;
     atlas_scale := atlas_scale c;
     show_glyph_details := show_glyph_details c;
     show_caret_details := show_caret_details c;
     show_baseline_details := b |}.

(** *** A state monad over the context and the world *)

Definition M (A : Type) : Type := state -> A * state.

Definition ret {A : Type} (a : A) : M A := fun s => (a, s).

Definition bind {A B : Type} (m : M A) (k : A -> M B) : M B :=
  fun s => let (a, s') := m s in k a s'.

Definition exec {A : Type} (m : M A) (s : state) : state := snd (m s).

Definition get_ctx : M context := fun s => (ctx s, s).

Definition modify_ctx (f : context -> context) : M unit :=
  fun s => (tt, {| ctx := f (ctx s); clipboard := clipboard s; calls := calls s |}).

(** a call leaves its mark at the end of the log *)
Definition emit (c : call) : M unit :=
  fun s => (tt, {| ctx := ctx s; clipboard := clipboard s;
                   calls := calls s ++ [c] |}).

Definition when (b : bool) (m : M unit) : M unit :=
  if b then m else ret tt.

(** an editor command: [ctx->editor] is updated in place *)
Definition editor_cmd (f : E -> E) : M unit :=
  modify_ctx (fun c => set_editor (f (editor c)) c).

Definition glfwGetClipboardString : M (option string) :=
  fun s => (clipboard s, s).

Definition set_clipboard (text : string) : M unit :=
  fun s => (tt, {| ctx := ctx s; clipboard := Some text;
                   calls := calls s ++ [glfwSetClipboardString text] |}).

End Testbed.

Notation "x <- m ;; k" := (bind m (fun x => k))
  (at level 61, m at next level, right associativity).
Notation "m ;; k" := (bind m (fun _ => k))
  (at level 61, right associativity).

(** ** The handlers of example_testbed.c *)

Section Handlers.
Context {F : Type} {FO : FloatOps F} {E : Type} {ED : EditorAPI F E}.

Abbreviation context := (testbed_context_t F E).
Abbreviation state := (machine F E).
Abbreviation action := (M (F := F) (E := E) unit).

(** The rectangle [update_ime_rect] builds from the caret at the active end
    of the selection. *)
Definition input_rect_of (c : context) : skb_rect2i_t :=
  let edit_selection := skb_editor_get_current_selection (editor c) in
  let caret_pos := skb_editor_get_visual_caret (editor c) (end_pos edit_selection) in
  {| rect_x := int32_of_float (cx (view c) + vc_x caret_pos * scale (view c))%flt;
     rect_y := int32_of_float (cy (view c) + vc_y caret_pos * scale (view c))%flt;
     rect_width := int32_of_float (vc_width caret_pos * scale (view c))%flt;
     rect_height := int32_of_float (vc_height caret_pos * scale (view c))%flt |}.

Definition update_ime_rect : action :=
  c <- get_ctx ;;
  let input_rect := input_rect_of c in
  emit (ime_set_input_rect input_rect).

Definition ime_handler (event : ime_event_t) (text : list Z) (cursor : Z) : action :=
  match event with
  | IME_EVENT_COMPOSITION =>
      editor_cmd (fun e => skb_editor_set_composition_utf32 e text cursor)
  | IME_EVENT_COMMIT =>
      editor_cmd (fun e => skb_editor_commit_composition_utf32 e text)
  | IME_EVENT_CANCEL =>
      editor_cmd skb_editor_clear_composition
  end ;;
  update_ime_rect.

(** The context [testbed_create] has built when it returns it: zeroed by
    [memset], then the three detail switches and the view set.  [e] is the
    editor after [skb_editor_create] and [skb_editor_set_text_utf8]. *)
Definition created_context (e : E) : context :=
  {| editor := e; allow_char := false;
     view := {| cx := float_of_int 400; cy := float_of_int 120;
                scale := float_of_int 1;
                anchor_x := float_of_int 0; anchor_y := float_of_int 0 |};
     drag_view := false; drag_text := false;
     atlas_scale := float_of_int 0;
     show_glyph_details := false;
     show_caret_details := true;
     show_baseline_details := false |}.

Definition created_state (e : E) (clip : option string) : state :=
  {| ctx := created_context e; clipboard := clip; calls := [] |}.

(** [testbed_destroy]: the context does not survive, so the result is the
    log of calls alone. *)
Definition testbed_destroy (s : state) : list call :=
  calls (exec (emit skb_editor_destroy ;;
               emit skb_font_collection_destroy ;;
               emit skb_temp_alloc_destroy ;;
               emit memset_ctx ;;
               emit ime_cancel ;;
               emit (ime_set_handler false) ;;
               emit skb_free_ctx) s).

Definition testbed_on_key (key act mods : Z) : action :=
  let edit_mods := 0 in
  let edit_mods :=
    if truthy (Z.land mods GLFW_MOD_SHIFT) then Z.lor edit_mods SKB_MOD_SHIFT else edit_mods in
  let edit_mods :=
    if truthy (Z.land mods GLFW_MOD_CONTROL) then Z.lor edit_mods SKB_MOD_CONTROL else edit_mods in
  let key_pressed k := editor_cmd (fun e => skb_editor_process_key_pressed e k edit_mods) in
  when ((act =? GLFW_PRESS) || (act =? GLFW_REPEAT)) (
    modify_ctx (set_allow_char true) ;;
    when ((key =? GLFW_KEY_V) && truthy (Z.land mods GLFW_MOD_CONTROL)) (
      (* Paste *)
      clipboard_text <- glfwGetClipboardString ;;
      editor_cmd (fun e => skb_editor_paste_utf8 e clipboard_text) ;;
      modify_ctx (set_allow_char false)) ;;
    when ((key =? GLFW_KEY_Z) && truthy (Z.land mods GLFW_MOD_CONTROL)
          && (Z.land mods GLFW_MOD_SHIFT =? 0))
      (editor_cmd skb_editor_undo) ;;
    when ((key =? GLFW_KEY_Z) && truthy (Z.land mods GLFW_MOD_CONTROL)
          && truthy (Z.land mods GLFW_MOD_SHIFT))
      (editor_cmd skb_editor_redo) ;;
    when (key =? GLFW_KEY_LEFT) (key_pressed SKB_KEY_LEFT) ;;
    when (key =? GLFW_KEY_RIGHT) (key_pressed SKB_KEY_RIGHT) ;;
    when (key =? GLFW_KEY_UP) (key_pressed SKB_KEY_UP) ;;
    when (key =? GLFW_KEY_DOWN) (key_pressed SKB_KEY_DOWN) ;;
    when (key =? GLFW_KEY_HOME) (key_pressed SKB_KEY_HOME) ;;
    when (key =? GLFW_KEY_END) (key_pressed SKB_KEY_END) ;;
    when (key =? GLFW_KEY_BACKSPACE) (key_pressed SKB_KEY_BACKSPACE) ;;
    when (key =? GLFW_KEY_DELETE) (key_pressed SKB_KEY_DELETE) ;;
    when (key =? GLFW_KEY_ENTER) (key_pressed SKB_KEY_ENTER) ;;
    update_ime_rect) ;;
  when (act =? GLFW_PRESS) (
    modify_ctx (set_allow_char true) ;;
    when ((key =? GLFW_KEY_A) && truthy (Z.land mods GLFW_MOD_CONTROL)) (
      (* Select all *)
      editor_cmd skb_editor_select_all ;;
      modify_ctx (set_allow_char false)) ;;
    when (key =? GLFW_KEY_TAB)
      (editor_cmd (fun e => skb_editor_insert_codepoint e 9)) ;;
    when (key =? GLFW_KEY_ESCAPE) (
      (* Clear selection *)
      c <- get_ctx ;;
      let selection := skb_editor_get_current_selection (editor c) in
      if 0 <? skb_editor_get_selection_text_utf32_count (editor c) selection
      then editor_cmd skb_editor_select_none
      else emit glfwSetWindowShouldClose) ;;
    when ((key =? GLFW_KEY_X) && truthy (Z.land mods GLFW_MOD_CONTROL)) (
      (* Cut *)
      c <- get_ctx ;;
      let selection := skb_editor_get_current_selection (editor c) in
      let text := skb_editor_get_selection_text_utf8 (editor c) selection in
      set_clipboard text ;;
      editor_cmd skb_editor_cut ;;
      modify_ctx (set_allow_char false)) ;;
    when ((key =? GLFW_KEY_C) && truthy (Z.land mods GLFW_MOD_CONTROL)) (
      (* Copy *)
      c <- get_ctx ;;
      let selection := skb_editor_get_current_selection (editor c) in
      let text := skb_editor_get_selection_text_utf8 (editor c) selection in
      set_clipboard text ;;
      modify_ctx (set_allow_char false)) ;;
    update_ime_rect ;;
    when (key =? GLFW_KEY_F7)
      (modify_ctx (fun c => set_show_baseline_details (negb (show_baseline_details c)) c)) ;;
    when (key =? GLFW_KEY_F8)
      (modify_ctx (fun c => set_show_caret_details (negb (show_caret_details c)) c)) ;;
    when (key =? GLFW_KEY_F9)
      (modify_ctx (fun c => set_show_glyph_details (negb (show_glyph_details c)) c)) ;;
    when (key =? GLFW_KEY_F10) (
      modify_ctx (fun c => set_atlas_scale (atlas_scale c + float_of_decimal 25 100)%flt c) ;;
      c <- get_ctx ;;
      when (float_of_decimal 101 100 <? atlas_scale c)%flt
        (modify_ctx (set_atlas_scale (float_of_int 0))))).

Definition testbed_on_char (codepoint : Z) : action :=
  c <- get_ctx ;;
  when (allow_char c)
    (editor_cmd (fun e => skb_editor_insert_codepoint e codepoint)).

Definition transform_mouse_pos (c : context) (mouse_x mouse_y : F) : skb_vec2_t F :=
  {| vec_x := ((mouse_x - cx (view c)) / scale (view c))%flt;
     vec_y := ((mouse_y - cy (view c)) / scale (view c))%flt |}.

(** [now] is the value [glfwGetTime()] returns during the call. *)
Definition testbed_on_mouse_button (now : F) (mouse_x mouse_y : F) (button act mods : Z) : action :=
  let mouse_mods := 0 in
  let mouse_mods :=
    if truthy (Z.land mods GLFW_MOD_SHIFT) then Z.lor mouse_mods SKB_MOD_SHIFT else mouse_mods in
  let mouse_mods :=
    if truthy (Z.land mods GLFW_MOD_CONTROL) then Z.lor mouse_mods SKB_MOD_CONTROL else mouse_mods in
  when (button =? GLFW_MOUSE_BUTTON_RIGHT) (
    when (act =? GLFW_PRESS) (
      c <- get_ctx ;;
      when (negb (drag_view c)) (
        modify_ctx (fun c => set_view (view_drag_start (view c) mouse_x mouse_y) c) ;;
        modify_ctx (set_drag_view true))) ;;
    when (act =? GLFW_RELEASE) (
      c <- get_ctx ;;
      when (drag_view c) (modify_ctx (set_drag_view false)))) ;;
  when (button =? GLFW_MOUSE_BUTTON_LEFT) (
    (* caret hit testing *)
    when (act =? GLFW_PRESS) (
      c <- get_ctx ;;
      when (negb (drag_text c)) (
        emit ime_cancel ;;
        modify_ctx (set_drag_text true) ;;
        c <- get_ctx ;;
        let pos := transform_mouse_pos c mouse_x mouse_y in
        editor_cmd (fun e =>
          skb_editor_process_mouse_click e (vec_x pos) (vec_y pos) mouse_mods now))) ;;
    when (act =? GLFW_RELEASE) (
      c <- get_ctx ;;
      when (drag_text c) (modify_ctx (set_drag_text false)))) ;;
  update_ime_rect.

Definition testbed_on_mouse_move (mouse_x mouse_y : F) : action :=
  c <- get_ctx ;;
  when (drag_view c) (
    modify_ctx (fun c => set_view (view_drag_move (view c) mouse_x mouse_y) c) ;;
    update_ime_rect) ;;
  c <- get_ctx ;;
  when (drag_text c) (
    c <- get_ctx ;;
    let pos := transform_mouse_pos c mouse_x mouse_y in
    editor_cmd (fun e => skb_editor_process_mouse_drag e (vec_x pos) (vec_y pos)) ;;
    update_ime_rect).

Definition testbed_on_mouse_scroll (mouse_x mouse_y delta_x delta_y : F) (mods : Z) : action :=
  let zoom_speed := float_of_decimal 2 10 in
  modify_ctx (fun c =>
    set_view (view_scroll_zoom (view c) mouse_x mouse_y (delta_y * zoom_speed)%flt) c).

End Handlers.

(** ** Caret details of [testbed_on_update] (the [show_caret_details] block) *)

Record skb_color_t : Type := {
  col_r : Z; col_g : Z; col_b : Z; col_a : Z
}.

Definition skb_rgba (r g b a : Z) : skb_color_t :=
  {| col_r := r; col_g := g; col_b := b; col_a := a |}.

Definition caret_color : skb_color_t := skb_rgba 255 128 128 255.
Definition caret2_color : skb_color_t := skb_rgba 128 128 255 255.

Inductive render_align_t : Type :=
| RENDER_ALIGN_START
| RENDER_ALIGN_CENTER
| RENDER_ALIGN_END.

(** The three debug render calls the block makes.  The text call keeps the
    two arguments of its ["%s%d"] format: the affinity string and the
    offset. *)
Inductive draw_cmd (F : Type) : Type :=
| debug_render_line (x0 y0 x1 y1 : F) (color : skb_color_t) (line_width : F)
| debug_render_tri (x0 y0 x1 y1 x2 y2 : F) (color : skb_color_t)
| debug_render_text (x y : F) (size : Z) (align : render_align_t)
                    (color : skb_color_t) (label : string) (number : Z).
Arguments debug_render_line {F}.
Arguments debug_render_tri {F}.
Arguments debug_render_text {F}.

Record skb_caret_iterator_result_t : Type := {
  text_position : skb_text_position_t;
  direction : Z
}.

(** What one successful [skb_caret_iterator_next] writes through its four
    out-parameters.  The iterator of a line is a finite sequence of these. *)
Record caret_boundary (F : Type) : Type := {
  caret_x : F;
  caret_advance : F;
  left_side : skb_caret_iterator_result_t;
  right_side : skb_caret_iterator_result_t
}.
Arguments caret_x {F}.
Arguments caret_advance {F}.
Arguments left_side {F}.
Arguments right_side {F}.

Section CaretDetails.
Context {F : Type} {FO : FloatOps F}.
(** [skb_is_rtl] of skb_common.h *)
Variable skb_is_rtl : Z -> bool.
(** origin and vertical extent of the line being drawn *)
Variables ox top_y bot_y : F.

Local Notation "# n" := (float_of_int n) (at level 5, n at level 0, format "# n").

(** [caret_advance < 40.f ? 15 : 0] *)
Definition overlap_offset (caret_advance : F) : F :=
  if (caret_advance <? #40)%flt then #15 else #0.

(** The body of the [while] loop for one boundary: the calls it makes and the
    value of [left_text_offset] it leaves for the next iteration. *)
Definition caret_boundary_body (left_text_offset : F) (b : caret_boundary F)
  : list (draw_cmd F) * F :=
  let left := left_side b in
  let right := right_side b in
  let cx := (ox + caret_x b)%flt in
  let line := debug_render_line cx bot_y cx (top_y + #5)%flt caret_color #(-1) in
  if negb (direction left =? direction right) then
    ([ line;
       debug_render_tri cx (top_y + #5)%flt (cx - #5)%flt (top_y + #5)%flt
                        cx (top_y + #5 + #5)%flt caret2_color;
       debug_render_tri cx (top_y + #5)%flt (cx + #5)%flt (top_y + #5)%flt
                        cx (top_y + #5 + #5)%flt caret_color;
       debug_render_text (cx - #3)%flt (top_y + #20 + left_text_offset)%flt 11
                         RENDER_ALIGN_END caret2_color
                         (affinity_str (affinity (text_position left)))
                         (offset (text_position left));
       debug_render_text (cx + #3)%flt (top_y + #20)%flt 11
                         RENDER_ALIGN_START caret_color
                         (affinity_str (affinity (text_position right)))
                         (offset (text_position right)) ],
     overlap_offset (caret_advance b))
  else if affinity_eqb (affinity (text_position right)) SKB_AFFINITY_TRAILING then
    ([ line;
       debug_render_tri cx (top_y + #5)%flt
                        (cx + #(if skb_is_rtl (direction right) then -5 else 5))%flt
                        (top_y + #5)%flt cx (top_y + #5 + #5)%flt caret_color;
       debug_render_text (cx + #3)%flt (top_y + #20)%flt 11
                         RENDER_ALIGN_START caret_color
                         (affinity_str (affinity (text_position right)))
                         (offset (text_position right)) ],
     overlap_offset (caret_advance b))
  else
    ([ line;
       debug_render_tri cx (top_y + #5)%flt
                        (cx + #(if skb_is_rtl (direction left) then -5 else 5))%flt
                        (top_y + #5)%flt cx (top_y + #5 + #5)%flt caret2_color;
       debug_render_text (cx - #3)%flt (top_y + #20 + left_text_offset)%flt 11
                         RENDER_ALIGN_END caret2_color
                         (affinity_str (affinity (text_position left)))
                         (offset (text_position left)) ],
     #0).

(** The [while (skb_caret_iterator_next(...))] loop over the boundaries of a
    line, started with the given [left_text_offset]. *)
Fixpoint caret_boundary_loop (left_text_offset : F) (iter : list (caret_boundary F))
  : list (draw_cmd F) :=
  match iter with
  | [] => []
  | b :: rest =>
      let (cmds, left_text_offset') := caret_boundary_body left_text_offset b in
      cmds ++ caret_boundary_loop left_text_offset' rest
  end.

Definition draw_caret_details (show_caret_details : bool) (iter : list (caret_boundary F))
  : list (draw_cmd F) :=
  if show_caret_details then caret_boundary_loop #0 iter else [].

(** *** Reading the markers off the render calls

    A marker is a triangle at the top of the boundary line together with its
    text label.  The triangle's second corner is its tip; the label carries
    the affinity and offset of one side. *)

Definition tri_tips (cmds : list (draw_cmd F)) : list F :=
  flat_map (fun c => match c with
                     | debug_render_tri _ _ x1 _ _ _ _ => [x1]
                     | _ => []
                     end) cmds.

Definition text_labels (cmds : list (draw_cmd F)) : list (string * Z) :=
  flat_map (fun c => match c with
                     | debug_render_text _ _ _ _ _ label number => [(label, number)]
                     | _ => []
                     end) cmds.

(** vertical position of the labels drawn right-aligned at [cx - 3], i.e.
    the left-side labels *)
Definition left_label_ys (cmds : list (draw_cmd F)) : list F :=
  flat_map (fun c => match c with
                     | debug_render_text _ y _ RENDER_ALIGN_END _ _ _ => [y]
                     | _ => []
                     end) cmds.

Definition label_of (r : skb_caret_iterator_result_t) : string * Z :=
  (affinity_str (affinity (text_position r)), offset (text_position r)).

(** the boundaries for which the body draws a left-side label *)
Definition draws_left_label (b : caret_boundary F) : Prop :=
  direction (left_side b) <> direction (right_side b)
  \/ affinity (text_position (right_side b)) <> SKB_AFFINITY_TRAILING.

End CaretDetails.

(** ** A reference editor *)

(** Modelled from the spec: the editor collaborator (skb_editor.c is not part
    of the example sources).  A single line of one-byte characters laid out
    left to right with a fixed advance, a selection whose [end_pos] is the
    caret, an in-flight composition and an undo history.  It instantiates
    [EditorAPI] so that the handlers can be run on concrete inputs; the
    theorems about the handlers hold for every instance of the interface. *)

Module RefEditor.

Record t : Type := {
  doc : string;
  selection : skb_text_selection_t;
  composition : option (list Z * Z);
  undo_stack : list (string * skb_text_selection_t);
  redo_stack : list (string * skb_text_selection_t)
}.

Definition advance : Z := 10.
Definition line_height : Z := 20.

Definition doc_length (e : t) : Z := Z.of_nat (String.length (doc e)).

Definition caret_at (n : Z) (a : skb_caret_affinity_t) : skb_text_position_t :=
  {| offset := n; affinity := a |}.

Definition collapsed (p : skb_text_position_t) : skb_text_selection_t :=
  {| start_pos := p; end_pos := p |}.

Definition sel_lo (s : skb_text_selection_t) : Z :=
  Z.min (offset (start_pos s)) (offset (end_pos s)).
Definition sel_hi (s : skb_text_selection_t) : Z :=
  Z.max (offset (start_pos s)) (offset (end_pos s)).

Definition selection_count (e : t) (s : skb_text_selection_t) : Z :=
  sel_hi s - sel_lo s.

Definition selection_text (e : t) (s : skb_text_selection_t) : string :=
  substring (Z.to_nat (sel_lo s)) (Z.to_nat (sel_hi s - sel_lo s)) (doc e).

Definition string_of_codepoints (cps : list Z) : string :=
  string_of_list_ascii (map (fun cp => Ascii.ascii_of_N (Z.to_N cp)) cps).

(** replace the selected range by [s], remember the old state for undo *)
Definition replace_selection (e : t) (s : string) : t :=
  let lo := Z.to_nat (sel_lo (selection e)) in
  let hi := Z.to_nat (sel_hi (selection e)) in
  let before := substring 0 lo (doc e) in
  let after := substring hi (String.length (doc e) - hi) (doc e) in
  {| doc := before ++ s ++ after;
     selection := collapsed (caret_at (Z.of_nat (lo + String.length s)) SKB_AFFINITY_TRAILING);
     composition := composition e;
     undo_stack := (doc e, selection e) :: undo_stack e;
     redo_stack := [] |}.

Definition with_selection (e : t) (s : skb_text_selection_t) : t :=
  {| doc := doc e; selection := s; composition := composition e;
     undo_stack := undo_stack e; redo_stack := redo_stack e |}.

Definition with_composition (e : t) (c : option (list Z * Z)) : t :=
  {| doc := doc e; selection := selection e; composition := c;
     undo_stack := undo_stack e; redo_stack := redo_stack e |}.

Definition clamp (lo hi n : Z) : Z := Z.max lo (Z.min hi n).

Definition move_caret (e : t) (n : Z) (mods : Z) : t :=
  let p := caret_at (clamp 0 (doc_length e) n) SKB_AFFINITY_TRAILING in
  with_selection e
    {| start_pos := if truthy (Z.land mods SKB_MOD_SHIFT)
                    then start_pos (selection e) else p;
       end_pos := p |}.

Definition delete_range (e : t) (lo hi : Z) : t :=
  replace_selection
    (with_selection e {| start_pos := caret_at (clamp 0 (doc_length e) lo) SKB_AFFINITY_TRAILING;
                         end_pos := caret_at (clamp 0 (doc_length e) hi) SKB_AFFINITY_TRAILING |})
    "".

Definition process_key_pressed (e : t) (k : skb_editor_key_t) (mods : Z) : t :=
  let caret := offset (end_pos (selection e)) in
  let has_selection := 0 <? selection_count e (selection e) in
  match k with
  | SKB_KEY_LEFT => move_caret e (caret - 1) mods
  | SKB_KEY_RIGHT => move_caret e (caret + 1) mods
  | SKB_KEY_UP | SKB_KEY_HOME => move_caret e 0 mods
  | SKB_KEY_DOWN | SKB_KEY_END => move_caret e (doc_length e) mods
  | SKB_KEY_BACKSPACE =>
      if has_selection then replace_selection e "" else delete_range e (caret - 1) caret
  | SKB_KEY_DELETE =>
      if has_selection then replace_selection e "" else delete_range e caret (caret + 1)
  | SKB_KEY_ENTER => replace_selection e (string_of_codepoints [10])
  end.

(** Modelled from the spec: "select-all on an N-character document gives
    selection == {start:{0,LEADING}, end:{N,TRAILING}}". *)
Definition select_all (e : t) : t :=
  with_selection e {| start_pos := caret_at 0 SKB_AFFINITY_LEADING;
                      end_pos := caret_at (doc_length e) SKB_AFFINITY_TRAILING |}.

Definition select_none (e : t) : t :=
  with_selection e (collapsed (end_pos (selection e))).

(** Modelled from the spec: "empty clipboard text [is] handled by falling
    back to no-op": no text and an empty text leave the editor as it is. *)
Definition paste (e : t) (text : option string) : t :=
  match text with
  | Some EmptyString | None => e
  | Some s => replace_selection e s
  end.

(** Modelled from the spec: "cut copies the current selection text to the
    clipboard then deletes it"; this is the deletion. *)
Definition cut (e : t) : t :=
  if 0 <? selection_count e (selection e) then replace_selection e "" else e.

Definition undo (e : t) : t :=
  match undo_stack e with
  | [] => e
  | (d, s) :: rest =>
      {| doc := d; selection := s; composition := composition e;
         undo_stack := rest; redo_stack := (doc e, selection e) :: redo_stack e |}
  end.

Definition redo (e : t) : t :=
  match redo_stack e with
  | [] => e
  | (d, s) :: rest =>
      {| doc := d; selection := s; composition := composition e;
         undo_stack := (doc e, selection e) :: undo_stack e; redo_stack := rest |}
  end.

(** Modelled from the spec: COMPOSITION replaces the composition content and
    cursor, COMMIT inserts the text and clears the composition, CANCEL
    discards it. *)
Definition set_composition (e : t) (text : list Z) (cursor : Z) : t :=
  with_composition e (Some (text, cursor)).

Definition commit_composition (e : t) (text : list Z) : t :=
  with_composition (replace_selection e (string_of_codepoints text)) None.

Definition clear_composition (e : t) : t := with_composition e None.

Section Geometry.
Context {F : Type} {FO : FloatOps F}.

Definition visual_caret (e : t) (p : skb_text_position_t) : skb_visual_caret_t F :=
  {| vc_x := float_of_int (advance * offset p);
     vc_y := float_of_int 0;
     vc_width := float_of_int 0;
     vc_height := float_of_int line_height;
     vc_direction := 1 |}.

(** the boundary nearest to [x] *)
Definition offset_at (e : t) (x : F) : Z :=
  clamp 0 (doc_length e)
        (int32_of_float ((x + float_of_int (advance / 2)) / float_of_int advance)%flt).

Definition process_mouse_click (e : t) (x y : F) (mods : Z) (time : F) : t :=
  move_caret e (offset_at e x) mods.

Definition process_mouse_drag (e : t) (x y : F) : t :=
  move_caret e (offset_at e x) SKB_MOD_SHIFT.

#[global] Instance api : EditorAPI F t := {|
  skb_editor_get_current_selection := selection;
  skb_editor_get_visual_caret := visual_caret;
  skb_editor_get_selection_text_utf32_count := selection_count;
  skb_editor_get_selection_text_utf8 := selection_text;
  skb_editor_set_composition_utf32 := set_composition;
  skb_editor_commit_composition_utf32 := commit_composition;
  skb_editor_clear_composition := clear_composition;
  skb_editor_paste_utf8 := paste;
  skb_editor_undo := undo;
  skb_editor_redo := redo;
  skb_editor_process_key_pressed := process_key_pressed;
  skb_editor_select_all := select_all;
  skb_editor_select_none := select_none;
  skb_editor_insert_codepoint := fun e cp => replace_selection e (string_of_codepoints [cp]);
  skb_editor_cut := cut;
  skb_editor_process_mouse_click := process_mouse_click;
  skb_editor_process_mouse_drag := process_mouse_drag
|}.

End Geometry.

(** an editor holding [text] with the caret at [n] and nothing selected *)
Definition make (text : string) (n : Z) : t :=
  {| doc := text;
     selection := collapsed (caret_at n SKB_AFFINITY_TRAILING);
     composition := None; undo_stack := []; redo_stack := [] |}.

End RefEditor.

(** ** Concrete states for running the handlers

    The testbed as created, on binary32 arithmetic and the reference editor
    holding the two characters "ab" with the caret between them, the system
    clipboard holding "clip" and no call logged yet. *)

Definition demo_state : machine spec_float RefEditor.t :=
  created_state (RefEditor.make "ab" 1) (Some "clip"%string).

(** The same testbed with the view centre moved to (-10.5, 120.5). *)
Definition demo_fraction_state : machine spec_float RefEditor.t :=
  exec (modify_ctx (set_view {| cx := float_of_decimal (-21) 2;
                                cy := float_of_decimal 241 2;
                                scale := float_of_int 1;
                                anchor_x := float_of_int 0;
                                anchor_y := float_of_int 0 |}))
       demo_state.

(** The testbed after a right-button press at (410, 130): a view pan is in
    progress. *)
Definition demo_panning_state : machine spec_float RefEditor.t :=
  exec (testbed_on_mouse_button (B32.of_Z 0) (B32.of_Z 410) (B32.of_Z 130)
                                GLFW_MOUSE_BUTTON_RIGHT GLFW_PRESS 0)
       demo_state.

(** A stand-in for [skb_is_rtl] (skb_common.h) in concrete runs: direction 2
    is right-to-left, direction 1 left-to-right. *)
Definition demo_is_rtl (d : Z) : bool := d =? 2.

(** Two boundaries of a line on binary32 arithmetic.  At [demo_bidi_boundary]
    the text to the left is right-to-left and the text to the right
    left-to-right, and the next boundary is 10 units away; at
    [demo_next_boundary], 10 units further, both sides are left-to-right. *)
Definition demo_bidi_boundary : caret_boundary spec_float :=
  {| caret_x := B32.of_Z 100;
     caret_advance := B32.of_Z 10;
     left_side := {| text_position := {| offset := 3; affinity := SKB_AFFINITY_LEADING |};
                     direction := 2 |};
     right_side := {| text_position := {| offset := 7; affinity := SKB_AFFINITY_TRAILING |};
                      direction := 1 |} |}.

Definition demo_next_boundary : caret_boundary spec_float :=
  {| caret_x := B32.of_Z 110;
     caret_advance := B32.of_Z 50;
     left_side := {| text_position := {| offset := 7; affinity := SKB_AFFINITY_LEADING |};
                     direction := 1 |};
     right_side := {| text_position := {| offset := 8; affinity := SKB_AFFINITY_LEADING |};
                      direction := 1 |} |}.

(** the rectangles published to the IME layer, oldest first *)
Definition publishes (l : list call) : list skb_rect2i_t :=
  flat_map (fun c => match c with ime_set_input_rect r => [r] | _ => [] end) l.

(** position of the first occurrence of a call in a log *)
Definition call_eqb (a b : call) : bool :=
  match a, b with
  | ime_cancel, ime_cancel
  | glfwSetWindowShouldClose, glfwSetWindowShouldClose
  | skb_editor_destroy, skb_editor_destroy
  | skb_font_collection_destroy, skb_font_collection_destroy
  | skb_temp_alloc_destroy, skb_temp_alloc_destroy
  | memset_ctx, memset_ctx
  | skb_free_ctx, skb_free_ctx => true
  | ime_set_handler x, ime_set_handler y => Bool.eqb x y
  | glfwSetClipboardString x, glfwSetClipboardString y => String.eqb x y
  | ime_set_input_rect x, ime_set_input_rect y =>
      (rect_x x =? rect_x y) && (rect_y x =? rect_y y)
      && (rect_width x =? rect_width y) && (rect_height x =? rect_height y)
  | _, _ => false
  end.

Fixpoint index_of (c : call) (l : list call) : option nat :=
  match l with
  | [] => None
  | c' :: rest =>
      if call_eqb c c' then Some O
      else match index_of c rest with
           | Some n => Some (S n)
           | None => None
           end
  end.

(** ** The callbacks as the application drives them

    [testbed_create] stores the handlers in [ctx->base]; the application
    calls them one event at a time. *)

Inductive input_event (F : Type) : Type :=
| key_event (key act mods : Z)
| char_event (codepoint : Z)
| mouse_button_event (now mouse_x mouse_y : F) (button act mods : Z)
| mouse_move_event (mouse_x mouse_y : F)
| mouse_scroll_event (mouse_x mouse_y delta_x delta_y : F) (mods : Z)
| ime_event (event : ime_event_t) (text : list Z) (cursor : Z).
Arguments key_event {F}.
Arguments char_event {F}.
Arguments mouse_button_event {F}.
Arguments mouse_move_event {F}.
Arguments mouse_scroll_event {F}.
Arguments ime_event {F}.

(** The editor commands the key handler can issue. *)
Inductive editor_command : Type :=
| cmd_none
| cmd_paste (text : option string)
| cmd_undo
| cmd_redo
| cmd_key (k : skb_editor_key_t) (mods : Z)
| cmd_select_all
| cmd_select_none
| cmd_insert (codepoint : Z)
| cmd_cut.

Section Application.
Context {F : Type} {FO : FloatOps F} {E : Type} {ED : EditorAPI F E}.

Definition on_event (ev : input_event F) : M (F := F) (E := E) unit :=
  match ev with
  | key_event key act mods => testbed_on_key key act mods
  | char_event codepoint => testbed_on_char codepoint
  | mouse_button_event now mouse_x mouse_y button act mods =>
      testbed_on_mouse_button now mouse_x mouse_y button act mods
  | mouse_move_event mouse_x mouse_y => testbed_on_mouse_move mouse_x mouse_y
  | mouse_scroll_event mouse_x mouse_y delta_x delta_y mods =>
      testbed_on_mouse_scroll mouse_x mouse_y delta_x delta_y mods
  | ime_event event text cursor => ime_handler event text cursor
  end.

Definition run_events (evs : list (input_event F)) (s : machine F E) : machine F E :=
  fold_left (fun s ev => exec (on_event ev) s) evs s.

Definition run_command (c : editor_command) (e : E) : E :=
  match c with
  | cmd_none => e
  | cmd_paste text => skb_editor_paste_utf8 e text
  | cmd_undo => skb_editor_undo e
  | cmd_redo => skb_editor_redo e
  | cmd_key k mods => skb_editor_process_key_pressed e k mods
  | cmd_select_all => skb_editor_select_all e
  | cmd_select_none => skb_editor_select_none e
  | cmd_insert codepoint => skb_editor_insert_codepoint e codepoint
  | cmd_cut => skb_editor_cut e
  end.

End Application.

(** the test guarding the first block of [testbed_on_key]; the second block
    runs for a subset of these actions *)
Definition is_key_down (act : Z) : bool :=
  (act =? GLFW_PRESS) || (act =? GLFW_REPEAT).

Definition is_key_down_event {F : Type} (ev : input_event F) : bool :=
  match ev with
  | key_event _ act _ => is_key_down act
  | _ => false
  end.

Definition is_char_event {F : Type} (ev : input_event F) : bool :=
  match ev with char_event _ => true | _ => false end.

Definition is_mouse_button_event {F : Type} (ev : input_event F) : bool :=
  match ev with mouse_button_event _ _ _ _ _ _ => true | _ => false end.

Definition is_key_event {F : Type} (ev : input_event F) : bool :=
  match ev with key_event _ _ _ => true | _ => false end.

Definition is_pointer_event {F : Type} (ev : input_event F) : bool :=
  match ev with
  | mouse_button_event _ _ _ _ _ _ | mouse_move_event _ _
  | mouse_scroll_event _ _ _ _ _ => true
  | _ => false
  end.

(** the calls an input handler may make *)
Definition is_handler_call (c : call) : bool :=
  match c with
  | ime_set_input_rect _ | ime_cancel | glfwSetClipboardString _
  | glfwSetWindowShouldClose => true
  | _ => false
  end.

(** the modifier mask [testbed_on_key] and [testbed_on_mouse_button] hand to
    the editor *)
Definition translated_mods (mods : Z) : Z :=
  let m := 0 in
  let m := if truthy (Z.land mods GLFW_MOD_SHIFT) then Z.lor m SKB_MOD_SHIFT else m in
  let m := if truthy (Z.land mods GLFW_MOD_CONTROL) then Z.lor m SKB_MOD_CONTROL else m in
  m.

(** the keys [testbed_on_key] forwards to [skb_editor_process_key_pressed] *)
Definition editing_keys : list (Z * skb_editor_key_t) :=
  [ (GLFW_KEY_LEFT, SKB_KEY_LEFT); (GLFW_KEY_RIGHT, SKB_KEY_RIGHT);
    (GLFW_KEY_UP, SKB_KEY_UP); (GLFW_KEY_DOWN, SKB_KEY_DOWN);
    (GLFW_KEY_HOME, SKB_KEY_HOME); (GLFW_KEY_END, SKB_KEY_END);
    (GLFW_KEY_BACKSPACE, SKB_KEY_BACKSPACE); (GLFW_KEY_DELETE, SKB_KEY_DELETE);
    (GLFW_KEY_ENTER, SKB_KEY_ENTER) ].

(** how often a log asks the window to close *)
Definition close_requests (l : list call) : nat :=
  List.length (filter (fun c => match c with glfwSetWindowShouldClose => true | _ => false end) l).

(** how often a log cancels the composition *)
Definition ime_cancels (l : list call) : nat :=
  List.length (filter (fun c => match c with ime_cancel => true | _ => false end) l).

(** [n] presses of F10 in a row *)
Definition f10_presses {F : Type} {FO : FloatOps F} {E : Type} {ED : EditorAPI F E}
           (n : nat) (mods : Z) (s : machine F E) : machine F E :=
  Nat.iter n (exec (testbed_on_key GLFW_KEY_F10 GLFW_PRESS mods)) s.

(** ** [testbed_create] *)

Inductive skb_font_family_t : Type :=
| SKB_FONT_FAMILY_DEFAULT
| SKB_FONT_FAMILY_EMOJI.

(** the [LOAD_FONT_OR_FAIL] lines, in order *)
Definition testbed_fonts : list (string * skb_font_family_t) :=
  [ ("data/IBMPlexSans-Regular.ttf"%string, SKB_FONT_FAMILY_DEFAULT);
    ("data/IBMPlexSansArabic-Regular.ttf"%string, SKB_FONT_FAMILY_DEFAULT);
    ("data/IBMPlexSansJP-Regular.ttf"%string, SKB_FONT_FAMILY_DEFAULT);
    ("data/IBMPlexSansKR-Regular.ttf"%string, SKB_FONT_FAMILY_DEFAULT);
    ("data/IBMPlexSansDevanagari-Regular.ttf"%string, SKB_FONT_FAMILY_DEFAULT);
    ("data/NotoSansBrahmi-Regular.ttf"%string, SKB_FONT_FAMILY_DEFAULT);
    ("data/NotoSerifBalinese-Regular.ttf"%string, SKB_FONT_FAMILY_DEFAULT);
    ("data/NotoSansTamil-Regular.ttf"%string, SKB_FONT_FAMILY_DEFAULT);
    ("data/NotoSansBengali-Regular.ttf"%string, SKB_FONT_FAMILY_DEFAULT);
    ("data/NotoSansThai-Regular.ttf"%string, SKB_FONT_FAMILY_DEFAULT);
    ("data/NotoColorEmoji-Regular.ttf"%string, SKB_FONT_FAMILY_EMOJI) ].

(** the text the editor is filled with (UTF-8 bytes of the literal) *)
Definition bidiText : string :=
  "Hamburgerfontstiv 🤣🥰💀✌️🌴🐢🐐🍄⚽🍻👑📸 این یک تست است 😬👀🚨🏡🕊️🏆😻🌟私はその人を常に先生と 呼んでいた。"%string.

(** Calls [testbed_create] makes, in order; [testbed_call] wraps the calls
    that the handlers and the teardown make as well. *)
Inductive create_call : Type :=
| skb_malloc_ctx
| render_reset_atlas
| skb_font_collection_create
| skb_font_collection_add_font (path : string) (family : skb_font_family_t)
| skb_debug_log (message : string)
| skb_temp_alloc_create (size : Z)
| skb_editor_create
| skb_editor_set_text_utf8 (text : string)
| testbed_call (c : call).

Section Create.
Context {F : Type} {FO : FloatOps F} {E : Type} {ED : EditorAPI F E}.
(** whether [skb_font_collection_add_font] succeeds for a path *)
Variable add_font_ok : string -> bool.
(** the editor [skb_editor_create (&edit_params)] returns, and the effect of
    [skb_editor_set_text_utf8] on it *)
Variable new_editor : E.
Variable set_text_utf8 : E -> string -> E.

Definition newline : string := String (Ascii.ascii_of_nat 10) EmptyString.

(** The [LOAD_FONT_OR_FAIL] sequence: [false] as soon as one font fails, with
    the message logged before the [goto error]. *)
Fixpoint load_fonts (fonts : list (string * skb_font_family_t)) : bool * list create_call :=
  match fonts with
  | [] => (true, [])
  | (path, family) :: rest =>
      if add_font_ok path then
        let (ok, log) := load_fonts rest in
        (ok, skb_font_collection_add_font path family :: log)
      else
        (false, [skb_font_collection_add_font path family;
                 skb_debug_log ("Failed to load " ++ path ++ newline)%string])
  end.

(** [testbed_create]: the context returned ([None] for [NULL]) and the calls
    made.  The allocations guarded by [assert] are taken to succeed.  On the
    error path the zeroed, partly filled context goes through
    [testbed_destroy], whose model reads none of its fields. *)
Definition testbed_create (clip : option string)
  : option (machine F E) * list create_call :=
  let head := [skb_malloc_ctx; testbed_call memset_ctx; render_reset_atlas;
               skb_font_collection_create] in
  let (ok, font_log) := load_fonts testbed_fonts in
  if ok then
    let e := set_text_utf8 new_editor bidiText in
    let s := exec (emit (ime_set_handler true) ;; update_ime_rect)
                  (created_state e clip) in
    (Some s,
     head ++ font_log
       ++ [skb_temp_alloc_create (512 * 1024); skb_editor_create;
           skb_editor_set_text_utf8 bidiText]
       ++ map testbed_call (calls s))
  else
    (None,
     head ++ font_log
       ++ map testbed_call (testbed_destroy (created_state new_editor clip))).

End Create.

(** the font paths a creation log shows were tried *)
Definition fonts_tried (log : list create_call) : list string :=
  flat_map (fun c => match c with
                     | skb_font_collection_add_font path _ => [path]
                     | _ => []
                     end) log.

(** the handler and teardown calls inside a creation log *)
Definition testbed_calls (log : list create_call) : list call :=
  flat_map (fun c => match c with testbed_call c' => [c'] | _ => [] end) log.

Definition is_create_editor (c : create_call) : bool :=
  match c with skb_editor_create => true | _ => false end.

(** vertical position of the labels drawn left-aligned at [cx + 3], i.e.
    the right-side labels *)
Definition right_label_ys {F : Type} (cmds : list (draw_cmd F)) : list F :=
  flat_map (fun c => match c with
                     | debug_render_text _ y _ RENDER_ALIGN_START _ _ _ => [y]
                     | _ => []
                     end) cmds.

(** the two heights at which a left-side label can sit *)
Definition label_heights {F : Type} {FO : FloatOps F} (top_y y : F) : Prop :=
  y = (top_y + float_of_int 20 + float_of_int 0)%flt
  \/ y = (top_y + float_of_int 20 + float_of_int 15)%flt.

Definition boundary_lines {F : Type} (cmds : list (draw_cmd F)) : list F :=
  flat_map (fun c => match c with
                     | debug_render_line x0 _ _ _ _ _ => [x0]
                     | _ => []
                     end) cmds.

(** ** Selection highlight of the logical string ([testbed_on_update]) *)

(** [caret_selection_start_idx] and [caret_selection_end_idx]: both [-1]
    unless the selection count is positive. *)
Definition caret_selection_range (selection_count caret_start_idx caret_insert_idx : Z)
  : Z * Z :=
  if 0 <? selection_count
  then (Z.min caret_start_idx caret_insert_idx, Z.max caret_start_idx caret_insert_idx)
  else (-1, -1).

(** the test that paints the selection colour behind a code point *)
Definition cell_selected (range : Z * Z) (edit_text_offset cp_idx : Z) : bool :=
  (fst range <=? edit_text_offset + cp_idx) && (cp_idx + edit_text_offset <? snd range).

(** the code points of [text_range] = [start, end) that are painted *)
Definition selected_cells (range : Z * Z) (edit_text_offset range_start : Z) (count : nat)
  : list Z :=
  filter (cell_selected range edit_text_offset)
         (map (fun i => range_start + Z.of_nat i) (seq 0 count)).

(** ** More concrete states *)

(** the demo state with the gate closed by a select-all press *)
Definition demo_gate_closed_state : machine spec_float RefEditor.t :=
  exec (testbed_on_key GLFW_KEY_A GLFW_PRESS GLFW_MOD_CONTROL) demo_state.

(** the demo state with "ab" selected *)
Definition demo_selected_state : machine spec_float RefEditor.t :=
  exec (modify_ctx (fun c => set_editor (RefEditor.select_all (editor c)) c)) demo_state.

(** the demo state with both drags active *)
Definition demo_both_drags_state : machine spec_float RefEditor.t :=
  exec (testbed_on_mouse_button (B32.of_Z 0) (B32.of_Z 410) (B32.of_Z 130)
                                GLFW_MOUSE_BUTTON_LEFT GLFW_PRESS 0)
       demo_panning_state.

(** a burst of events without a key going down *)
Definition demo_quiet_events : list (input_event spec_float) :=
  [ char_event 97;
    key_event GLFW_KEY_A GLFW_RELEASE GLFW_MOD_CONTROL;
    mouse_move_event (B32.of_Z 1) (B32.of_Z 2);
    char_event 98;
    ime_event IME_EVENT_CANCEL [] 0 ].

(** a file system on which the third font of the list is missing, and one on
    which every font is present *)
Definition demo_fonts_without_jp (path : string) : bool :=
  negb (String.eqb path "data/IBMPlexSansJP-Regular.ttf").

Definition demo_fonts_complete (path : string) : bool := true.

(** the reference editor as created, and its way of taking a text *)
Definition demo_new_editor : RefEditor.t := RefEditor.make EmptyString 0.

Definition demo_set_text (e : RefEditor.t) (text : string) : RefEditor.t :=
  RefEditor.make text 0.

(** the demo state with the view scale zeroed by a wheel delta of -5 *)
Definition demo_zero_scale_state : machine spec_float RefEditor.t :=
  exec (testbed_on_mouse_scroll (B32.of_Z 410) (B32.of_Z 130) (B32.of_Z 0)
                                (B32.of_Z (-5)) 0)
       demo_state.

(** ** Markers of the caret-boundary visualisation *)

Section CaretMarkers.
Context {F : Type} {FO : FloatOps F}.
Variable skb_is_rtl : Z -> bool.
Variable ox : F.

Local Notation "# n" := (float_of_int n) (at level 5, n at level 0, format "# n").

(** The tip of a triangle at the boundary line [cx] that is oriented along
    the direction [d]: [cx + (skb_is_rtl(d) ? -5 : 5)], the expression of the
    two single-direction branches. *)
Definition tip_along (cx : F) (d : Z) : F :=
  (cx + #(if skb_is_rtl d then -5 else 5))%flt.

(** The markers expected at one boundary, given by the tips of their
    triangles and by their labels.  Across a change of direction there are
    two, the first with its tip to the left of the boundary line and the
    label of the left side, the second with its tip to the right and the
    label of the right side.  Otherwise there is one: oriented along the
    direction of the right side and labelled with it when the affinity of the
    right side is TRAILING, else oriented along the direction of the left
    side and labelled with the left side. *)
Definition marker_tips (b : caret_boundary F) : list F :=
  let cx := (ox + caret_x b)%flt in
  if negb (direction (left_side b) =? direction (right_side b)) then
    [(cx - #5)%flt; (cx + #5)%flt]
  else if affinity_eqb (affinity (text_position (right_side b))) SKB_AFFINITY_TRAILING then
    [tip_along cx (direction (right_side b))]
  else
    [tip_along cx (direction (left_side b))].

Definition marker_labels (b : caret_boundary F) : list (string * Z) :=
  if negb (direction (left_side b) =? direction (right_side b)) then
    [label_of (left_side b); label_of (right_side b)]
  else if affinity_eqb (affinity (text_position (right_side b))) SKB_AFFINITY_TRAILING then
    [label_of (right_side b)]
  else
    [label_of (left_side b)].

End CaretMarkers.

(** The mirror image of [demo_bidi_boundary]: the text to the left is
    left-to-right, the text to the right right-to-left. *)
Definition demo_mirrored_boundary : caret_boundary spec_float :=
  {| caret_x := B32.of_Z 100;
     caret_advance := B32.of_Z 10;
     left_side := {| text_position := {| offset := 3; affinity := SKB_AFFINITY_TRAILING |};
                     direction := 1 |};
     right_side := {| text_position := {| offset := 7; affinity := SKB_AFFINITY_LEADING |};
                      direction := 2 |} |}.

(** ** Empty input of the clipboard shortcuts *)


Section EditorFallBack.
Context {F : Type} {E : Type} {ED : EditorAPI F E}.


End EditorFallBack.


(** ** Exactness of binary32 operations *)










(** ** Properties *)

Section HandlerProperties.
Context {F : Type} {FO : FloatOps F} {E : Type} {ED : EditorAPI F E}.

Abbreviation state := (machine F E).

Lemma publishes_app (l1 l2 : list call) :
  publishes (l1 ++ l2) = publishes l1 ++ publishes l2.
Proof. unfold publishes. apply flat_map_app. Qed.

(** A character event with the gate closed changes nothing. *)
Lemma on_char_dropped (s : state) (cp : Z) :
  allow_char (ctx s) = false -> exec (testbed_on_char cp) s = s.
Proof.
  intros H. unfold testbed_on_char, exec, bind, get_ctx, when. simpl.
  rewrite H. reflexivity.
Qed.

(** A character event with the gate open inserts the code point. *)
Lemma on_char_forwarded (s : state) (cp : Z) :
  allow_char (ctx s) = true ->
  editor (ctx (exec (testbed_on_char cp) s))
  = skb_editor_insert_codepoint (editor (ctx s)) cp.
Proof.
  intros H. unfold testbed_on_char, exec, bind, get_ctx, when. simpl.
  rewrite H. reflexivity.
Qed.

Ltac split_key key :=
  repeat match goal with
         | |- context [Z.eqb key ?k] => destruct (Z.eqb_spec key k) as [->|?]
         end.

Ltac split_action act :=
  repeat match goal with
         | |- context [Z.eqb act ?k] => destruct (Z.eqb_spec act k) as [->|?]
         end.

(** symbolic execution of a handler on an arbitrary state *)
Ltac run :=
  cbv beta iota zeta delta
    [exec bind when ret modify_ctx get_ctx emit editor_cmd update_ime_rect
     set_clipboard glfwGetClipboardString fst snd
     set_editor set_allow_char set_view set_drag_view set_drag_text
     set_atlas_scale set_show_glyph_details set_show_caret_details
     set_show_baseline_details];
  cbn [ctx clipboard calls
       editor allow_char view drag_view drag_text atlas_scale
       show_glyph_details show_caret_details show_baseline_details].

Ltac split_ifs :=
  repeat match goal with
         | |- context [if ?b then _ else _] => destruct b; run
         end.

(** The gate is re-armed by every key press or repeat that is not CONTROL
    together with one of V, A, X, C. *)
Lemma on_key_rearms (s : state) (key act mods : Z) :
  act = GLFW_PRESS \/ act = GLFW_REPEAT ->
  ~ (truthy (Z.land mods GLFW_MOD_CONTROL) = true
     /\ In key [GLFW_KEY_V; GLFW_KEY_A; GLFW_KEY_X; GLFW_KEY_C]) ->
  allow_char (ctx (exec (testbed_on_key key act mods) s)) = true.
Proof.
  intros Hact Hkey.
  assert (Hc : truthy (Z.land mods GLFW_MOD_CONTROL) = false
               \/ ~ In key [GLFW_KEY_V; GLFW_KEY_A; GLFW_KEY_X; GLFW_KEY_C]).
  { destruct (truthy (Z.land mods GLFW_MOD_CONTROL)); [right|left]; tauto. }
  unfold testbed_on_key.
  destruct (truthy (Z.land mods GLFW_MOD_CONTROL)) eqn:Hctrl;
    destruct (Z.land mods GLFW_MOD_SHIFT =? 0) eqn:Hshift;
    unfold truthy; rewrite ?Hshift;
    (destruct Hc as [Hc|Hc]; [discriminate Hc|]) || clear Hc;
    destruct Hact as [-> | ->]; split_key key;
    try (exfalso; apply Hc; simpl; tauto);
    cbn; run; split_ifs; reflexivity.
Qed.

(** what a shortcut with CONTROL held leaves in the gate *)
Lemma on_key_clears_gate (s : state) (key act mods : Z) :
  truthy (Z.land mods GLFW_MOD_CONTROL) = true ->
  (act = GLFW_PRESS /\ (key = GLFW_KEY_A \/ key = GLFW_KEY_X \/ key = GLFW_KEY_C))
  \/ (act = GLFW_REPEAT /\ key = GLFW_KEY_V) ->
  allow_char (ctx (exec (testbed_on_key key act mods) s)) = false.
Proof.
  intros Hctrl [ [ -> [ -> | [ -> | -> ] ] ] | [ -> -> ] ];
    unfold testbed_on_key; rewrite Hctrl; cbn; run; reflexivity.
Qed.

(** What the shortcuts leave in the gate.  With CONTROL held, a select-all,
    cut or copy key press and a paste key repeat leave the allow-char gate
    false, so the character event that follows immediately is dropped (the
    state is unchanged by it).  Undo and redo (CONTROL+Z, with or without
    SHIFT) leave the gate true, so the character event that follows is
    forwarded to the editor.  Every key press or repeat that is not CONTROL
    with V, A, X or C re-arms the gate, whatever its value was. *)
Lemma gate_after_shortcuts (s : state) (mods : Z) :
  truthy (Z.land mods GLFW_MOD_CONTROL) = true ->
  (forall key act,
      (act = GLFW_PRESS /\ (key = GLFW_KEY_A \/ key = GLFW_KEY_X \/ key = GLFW_KEY_C))
      \/ (act = GLFW_REPEAT /\ key = GLFW_KEY_V) ->
      let s' := exec (testbed_on_key key act mods) s in
      allow_char (ctx s') = false
      /\ forall cp, exec (testbed_on_char cp) s' = s')
  /\ (forall act,
      act = GLFW_PRESS \/ act = GLFW_REPEAT ->
      let s' := exec (testbed_on_key GLFW_KEY_Z act mods) s in
      allow_char (ctx s') = true
      /\ forall cp, editor (ctx (exec (testbed_on_char cp) s'))
                    = skb_editor_insert_codepoint (editor (ctx s')) cp)
  /\ (forall (s0 : state) key act mods',
      act = GLFW_PRESS \/ act = GLFW_REPEAT ->
      ~ (truthy (Z.land mods' GLFW_MOD_CONTROL) = true
         /\ In key [GLFW_KEY_V; GLFW_KEY_A; GLFW_KEY_X; GLFW_KEY_C]) ->
      allow_char (ctx (exec (testbed_on_key key act mods') s0)) = true).
Proof.
  intros Hctrl. repeat split.
  - apply on_key_clears_gate; assumption.
  - intros cp. apply on_char_dropped. apply on_key_clears_gate; assumption.
  - apply on_key_rearms; [assumption|].
    intros [_ Hin]. simpl in Hin.
    repeat (destruct Hin as [Hin|Hin]; [discriminate Hin|]). exact Hin.
  - intros cp. apply on_char_forwarded. apply on_key_rearms; [assumption|].
    intros [_ Hin]. simpl in Hin.
    repeat (destruct Hin as [Hin|Hin]; [discriminate Hin|]). exact Hin.
  - intros. apply on_key_rearms; assumption.
Qed.

(** The paste branch closes the gate, and on a key press the second block
    opens it again. *)
Lemma paste_press_gate (s : state) (mods : Z) :
  truthy (Z.land mods GLFW_MOD_CONTROL) = true ->
  allow_char (ctx (exec (testbed_on_key GLFW_KEY_V GLFW_PRESS mods) s)) = true.
Proof.
  intros Hctrl. unfold testbed_on_key; rewrite Hctrl; cbn; run; reflexivity.
Qed.

(** C2 (amended).  Each drag flag is guarded against its own re-entry only.
    A right-button press sets [drag_view], leaves [drag_text] as it was, and
    leaves the whole context unchanged when [drag_view] was already set; a
    left-button press does the same for [drag_text]; a release clears the
    flag of its own button only. *)
Theorem C2_drag_flags_independent (s : state) (now mouse_x mouse_y : F) (mods : Z) :
  let press button :=
    ctx (exec (testbed_on_mouse_button now mouse_x mouse_y button GLFW_PRESS mods) s) in
  let release button :=
    ctx (exec (testbed_on_mouse_button now mouse_x mouse_y button GLFW_RELEASE mods) s) in
  (drag_view (press GLFW_MOUSE_BUTTON_RIGHT) = true
   /\ drag_text (press GLFW_MOUSE_BUTTON_RIGHT) = drag_text (ctx s)
   /\ (drag_view (ctx s) = true -> press GLFW_MOUSE_BUTTON_RIGHT = ctx s))
  /\ (drag_text (press GLFW_MOUSE_BUTTON_LEFT) = true
      /\ drag_view (press GLFW_MOUSE_BUTTON_LEFT) = drag_view (ctx s)
      /\ (drag_text (ctx s) = true -> press GLFW_MOUSE_BUTTON_LEFT = ctx s))
  /\ (drag_view (release GLFW_MOUSE_BUTTON_RIGHT) = false
      /\ drag_text (release GLFW_MOUSE_BUTTON_RIGHT) = drag_text (ctx s))
  /\ (drag_text (release GLFW_MOUSE_BUTTON_LEFT) = false
      /\ drag_view (release GLFW_MOUSE_BUTTON_LEFT) = drag_view (ctx s)).
Proof.
  intros press release. subst press release.
  destruct s as [c clip log]. destruct c as [e ac v dv dt a g cd bd].
  unfold testbed_on_mouse_button. cbn. run.
  destruct dv; destruct dt; cbn; run;
    repeat split; try reflexivity; try discriminate.
Qed.

Ltac flatten_publishes :=
  repeat rewrite publishes_app;
  cbn [publishes flat_map app];
  repeat rewrite app_nil_r;
  repeat rewrite <- app_assoc;
  cbn [app].

(** every IME event: one call, the publish, computed after the event *)
Lemma ime_handler_publishes_once (s : state) (event : ime_event_t)
      (text : list Z) (cursor : Z) :
  let s' := exec (ime_handler event text cursor) s in
  calls s' = calls s ++ [ime_set_input_rect (input_rect_of (ctx s'))].
Proof. destruct event; reflexivity. Qed.

(** a key repeat: one publish, after the commands of the first block *)
Lemma on_key_repeat_publishes_once (s : state) (key mods : Z) :
  let s' := exec (testbed_on_key key GLFW_REPEAT mods) s in
  publishes (calls s') = publishes (calls s) ++ [input_rect_of (ctx s')].
Proof.
  destruct s as [c clip log]. destruct c as [e ac v dv dt a g cd bd].
  unfold testbed_on_key.
  destruct (truthy (Z.land mods GLFW_MOD_CONTROL));
    destruct (Z.land mods GLFW_MOD_SHIFT =? 0) eqn:Hshift;
    unfold truthy; rewrite ?Hshift;
    split_key key; cbn; run; flatten_publishes; reflexivity.
Qed.

(** a key press: two publishes, one at the end of each block *)
Lemma on_key_press_publishes_twice (s : state) (key mods : Z) :
  let mid := exec (testbed_on_key key GLFW_REPEAT mods) s in
  let s' := exec (testbed_on_key key GLFW_PRESS mods) s in
  publishes (calls s')
  = publishes (calls s) ++ [input_rect_of (ctx mid); input_rect_of (ctx s')].
Proof.
  destruct s as [c clip log]. destruct c as [e ac v dv dt a g cd bd].
  unfold testbed_on_key.
  destruct (truthy (Z.land mods GLFW_MOD_CONTROL));
    destruct (Z.land mods GLFW_MOD_SHIFT =? 0) eqn:Hshift;
    unfold truthy; rewrite ?Hshift;
    split_key key; cbn; run; split_ifs; flatten_publishes; reflexivity.
Qed.

(** a character event publishes nothing *)
Lemma on_char_publishes_nothing (s : state) (cp : Z) :
  calls (exec (testbed_on_char cp) s) = calls s.
Proof.
  unfold testbed_on_char. run. destruct (allow_char (ctx s)); reflexivity.
Qed.

(** a mouse-button event: one publish, after the button was handled *)
Lemma on_mouse_button_publishes_once (s : state) (now mouse_x mouse_y : F)
      (button act mods : Z) :
  let s' := exec (testbed_on_mouse_button now mouse_x mouse_y button act mods) s in
  publishes (calls s') = publishes (calls s) ++ [input_rect_of (ctx s')].
Proof.
  destruct s as [c clip log]. destruct c as [e ac v dv dt a g cd bd].
  unfold testbed_on_mouse_button.
  split_key button; split_action act; cbn; run;
    destruct dv; destruct dt; cbn; run; flatten_publishes; reflexivity.
Qed.

(** C3 (amended).  Every COMPOSITION, COMMIT or CANCEL event makes exactly
    one call, the publish of the input rectangle.  A key event with action
    REPEAT publishes exactly once and a key event with action PRESS exactly
    twice, once at the end of each of the two dispatch blocks, the last
    publish being computed from the state the handler leaves.  A mouse-button
    event publishes exactly once.  Every
    published rectangle is computed from the visual caret at the end of the
    selection of the editor at that moment, as
    [x = (int32_t)(view.cx + caret.x * view.scale)],
    [y = (int32_t)(view.cy + caret.y * view.scale)]. *)
Theorem C3_input_rect_publishes (s : state) :
  (forall event text cursor,
      let s' := exec (ime_handler event text cursor) s in
      calls s' = calls s ++ [ime_set_input_rect (input_rect_of (ctx s'))])
  /\ (forall key mods,
      let s' := exec (testbed_on_key key GLFW_REPEAT mods) s in
      publishes (calls s') = publishes (calls s) ++ [input_rect_of (ctx s')])
  /\ (forall key mods,
      let mid := exec (testbed_on_key key GLFW_REPEAT mods) s in
      let s' := exec (testbed_on_key key GLFW_PRESS mods) s in
      publishes (calls s')
      = publishes (calls s) ++ [input_rect_of (ctx mid); input_rect_of (ctx s')])
  /\ (forall now mouse_x mouse_y button act mods,
      let s' := exec (testbed_on_mouse_button now mouse_x mouse_y button act mods) s in
      publishes (calls s') = publishes (calls s) ++ [input_rect_of (ctx s')])
  /\ (forall c : testbed_context_t F E,
      let caret :=
        skb_editor_get_visual_caret
          (editor c) (end_pos (skb_editor_get_current_selection (editor c))) in
      rect_x (input_rect_of c)
      = int32_of_float (cx (view c) + vc_x caret * scale (view c))%flt
      /\ rect_y (input_rect_of c)
         = int32_of_float (cy (view c) + vc_y caret * scale (view c))%flt).
Proof.
  split; [|split; [|split; [|split]]].
  - apply ime_handler_publishes_once.
  - apply on_key_repeat_publishes_once.
  - apply on_key_press_publishes_twice.
  - apply on_mouse_button_publishes_once.
  - intros c caret. split; reflexivity.
Qed.

(** C4 (amended).  Teardown destroys the editor first, then the font
    collection and the temp allocator, and zeroes the context; only after
    that is the in-flight composition cancelled and, after the cancel, the
    handler registration cleared; the context is freed last.  Both IME steps
    come strictly after the destruction of the editor. *)
Theorem C4_teardown_order (s : state) :
  let log := skipn (List.length (calls s)) (testbed_destroy s) in
  log = [skb_editor_destroy; skb_font_collection_destroy; skb_temp_alloc_destroy;
         memset_ctx; ime_cancel; ime_set_handler false; skb_free_ctx]
  /\ exists i j k,
      index_of skb_editor_destroy log = Some i
      /\ index_of ime_cancel log = Some j
      /\ index_of (ime_set_handler false) log = Some k
      /\ (i < j < k)%nat.
Proof.
  intros log.
  assert (Hlog : log = [skb_editor_destroy; skb_font_collection_destroy;
                        skb_temp_alloc_destroy; memset_ctx; ime_cancel;
                        ime_set_handler false; skb_free_ctx]).
  { subst log. unfold testbed_destroy. run.
    repeat rewrite <- app_assoc. cbn [app].
    rewrite skipn_app, skipn_all, Nat.sub_diag. reflexivity. }
  split; [exact Hlog|].
  rewrite Hlog. exists 0%nat, 4%nat, 5%nat.
  repeat split; try reflexivity; lia.
Qed.



End HandlerProperties.

Section CaretProperties.
Context {F : Type} {FO : FloatOps F}.
Variable skb_is_rtl : Z -> bool.
Variables ox top_y bot_y : F.

Local Notation "# n" := (float_of_int n) (at level 5, n at level 0, format "# n").
Abbreviation body := (caret_boundary_body skb_is_rtl ox top_y bot_y).
Abbreviation loop := (caret_boundary_loop skb_is_rtl ox top_y bot_y).

Lemma affinity_eqb_eq (a b : skb_caret_affinity_t) :
  affinity_eqb a b = true <-> a = b.
Proof. destruct a, b; simpl; split; intros H; congruence. Qed.

Lemma caret_boundary_loop_cons (off : F) (b : caret_boundary F) (rest : list (caret_boundary F)) :
  loop off (b :: rest) = fst (body off b) ++ loop (snd (body off b)) rest.
Proof. simpl. destruct (body off b). reflexivity. Qed.

Lemma tri_tips_app (l1 l2 : list (draw_cmd F)) :
  tri_tips (l1 ++ l2) = tri_tips l1 ++ tri_tips l2.
Proof. unfold tri_tips. apply flat_map_app. Qed.

Lemma text_labels_app (l1 l2 : list (draw_cmd F)) :
  text_labels (l1 ++ l2) = text_labels l1 ++ text_labels l2.
Proof. unfold text_labels. apply flat_map_app. Qed.

(** the triangles and labels the loop body draws for one boundary *)
Lemma markers_of_body (off : F) (b : caret_boundary F) :
  tri_tips (fst (body off b)) = marker_tips skb_is_rtl ox b
  /\ text_labels (fst (body off b)) = marker_labels b.
Proof.
  unfold caret_boundary_body, marker_tips, marker_labels, tip_along, label_of.
  destruct (negb (direction (left_side b) =? direction (right_side b)));
    [|destruct (affinity_eqb (affinity (text_position (right_side b)))
                             SKB_AFFINITY_TRAILING)];
    split; reflexivity.
Qed.

Lemma markers_of_loop (iter : list (caret_boundary F)) (off : F) :
  tri_tips (loop off iter) = flat_map (marker_tips skb_is_rtl ox) iter
  /\ text_labels (loop off iter) = flat_map marker_labels iter.
Proof.
  revert off. induction iter as [|b rest IH]; intros off.
  - split; reflexivity.
  - rewrite caret_boundary_loop_cons, tri_tips_app, text_labels_app.
    destruct (markers_of_body off b) as [Ht Hl].
    destruct (IH (snd (body off b))) as [IHt IHl].
    rewrite Ht, Hl, IHt, IHl. split; reflexivity.
Qed.

(** C5 (amended).  Along a line the visualisation draws, boundary after
    boundary in the order the iterator yields them, the markers of each
    boundary and no others; a marker is a triangle with a text label.  A
    boundary has at most two markers.  When its two sides differ in direction
    it has exactly two: one with its tip to the left of the boundary line,
    labelled with the affinity and offset of the left side, and one with its
    tip to the right, labelled with those of the right side, whatever the two
    directions are.  When the directions agree it has exactly one: oriented
    along the direction of the right side and labelled with the right side
    when the affinity of the right side is TRAILING, otherwise oriented along
    the direction of the left side and labelled with the left side.  With the
    caret details switched off nothing is drawn. *)
Theorem C5_markers_along_line (iter : list (caret_boundary F)) :
  let cmds := draw_caret_details skb_is_rtl ox top_y bot_y true iter in
  tri_tips cmds = flat_map (marker_tips skb_is_rtl ox) iter
  /\ text_labels cmds = flat_map marker_labels iter
  /\ draw_caret_details skb_is_rtl ox top_y bot_y false iter = []
  /\ forall b : caret_boundary F,
      let left := left_side b in
      let right := right_side b in
      let cx := (ox + caret_x b)%flt in
      let tips := marker_tips skb_is_rtl ox b in
      let labels := marker_labels b in
      (1 <= List.length tips <= 2)%nat
      /\ List.length labels = List.length tips
      /\ (direction left <> direction right ->
          tips = [(cx - #5)%flt; (cx + #5)%flt]
          /\ labels = [label_of left; label_of right])
      /\ (direction left = direction right ->
          affinity (text_position right) = SKB_AFFINITY_TRAILING ->
          tips = [(cx + #(if skb_is_rtl (direction right) then -5 else 5))%flt]
          /\ labels = [label_of right])
      /\ (direction left = direction right ->
          affinity (text_position right) <> SKB_AFFINITY_TRAILING ->
          tips = [(cx + #(if skb_is_rtl (direction left) then -5 else 5))%flt]
          /\ labels = [label_of left]).
Proof.
  intros cmds. subst cmds.
  split; [|split; [|split]].
  - apply (markers_of_loop iter #0).
  - apply (markers_of_loop iter #0).
  - reflexivity.
  - intros b left right cx tips labels. subst left right cx tips labels.
    unfold marker_tips, marker_labels, tip_along.
    destruct (Z.eqb_spec (direction (left_side b)) (direction (right_side b))) as [Hd|Hd];
      destruct (affinity_eqb (affinity (text_position (right_side b))) SKB_AFFINITY_TRAILING) eqn:Ha;
      cbn [negb List.length];
      repeat split; try lia; try reflexivity; try (intros; contradiction);
      intros; try reflexivity.
    all: try (apply affinity_eqb_eq in Ha; contradiction).
    all: match goal with
         | Hq : affinity _ = SKB_AFFINITY_TRAILING |- _ =>
             apply affinity_eqb_eq in Hq; congruence
         end.
Qed.

Lemma left_label_of_body (off : F) (b : caret_boundary F) :
  draws_left_label b ->
  left_label_ys (fst (body off b)) = [(top_y + #20 + off)%flt].
Proof.
  intros Hb. unfold caret_boundary_body.
  destruct (Z.eqb_spec (direction (left_side b)) (direction (right_side b))) as [Hd|Hd];
    destruct (affinity_eqb (affinity (text_position (right_side b))) SKB_AFFINITY_TRAILING) eqn:Ha;
    cbn [negb fst left_label_ys flat_map app]; try reflexivity.
  apply affinity_eqb_eq in Ha. destruct Hb as [Hb|Hb]; contradiction.
Qed.

(** C6 (amended).  The overlap offset a direction-change boundary computes
    (15 when its advance to the next boundary is less than 40, otherwise 0)
    is stored after the labels of that boundary have been drawn: the left
    label of the boundary itself is drawn with the offset it received, and
    the computed offset lowers the left label of the boundary that follows
    on the line.  The first boundary of a line receives offset zero.  The
    single-direction branch taken when the right affinity is not TRAILING
    resets the offset to zero. *)
Theorem C6_overlap_offset_reaches_next_boundary
        (left_text_offset : F) (b1 b2 : caret_boundary F)
        (rest : list (caret_boundary F)) :
  let cmds1 := fst (body left_text_offset b1) in
  let off1 := snd (body left_text_offset b1) in
  let cmds2 := fst (body off1 b2) in
  let off2 := snd (body off1 b2) in
  loop left_text_offset (b1 :: b2 :: rest) = cmds1 ++ cmds2 ++ loop off2 rest
  /\ draw_caret_details skb_is_rtl ox top_y bot_y true (b1 :: b2 :: rest)
     = loop #0 (b1 :: b2 :: rest)
  /\ (direction (left_side b1) <> direction (right_side b1) ->
      left_label_ys cmds1 = [(top_y + #20 + left_text_offset)%flt]
      /\ off1 = (if (caret_advance b1 <? #40)%flt then #15 else #0)
      /\ (draws_left_label b2 ->
          left_label_ys cmds2
          = [(top_y + #20 + (if (caret_advance b1 <? #40)%flt then #15 else #0))%flt]))
  /\ (direction (left_side b1) = direction (right_side b1) ->
      affinity (text_position (right_side b1)) <> SKB_AFFINITY_TRAILING ->
      off1 = #0).
Proof.
  intros cmds1 off1 cmds2 off2.
  split; [|split; [|split]].
  - subst cmds1 off1 cmds2 off2. rewrite !caret_boundary_loop_cons. reflexivity.
  - reflexivity.
  - intros Hd.
    assert (Hoff : off1 = (if (caret_advance b1 <? #40)%flt then #15 else #0)).
    { subst off1. unfold caret_boundary_body.
      destruct (Z.eqb_spec (direction (left_side b1)) (direction (right_side b1)));
        [contradiction|reflexivity]. }
    split; [|split].
    + apply left_label_of_body. left. exact Hd.
    + exact Hoff.
    + intros Hb2. subst cmds2. rewrite Hoff. apply left_label_of_body. exact Hb2.
  - intros Hd Ha. subst off1. unfold caret_boundary_body.
    destruct (Z.eqb_spec (direction (left_side b1)) (direction (right_side b1)));
      [|contradiction].
    destruct (affinity_eqb (affinity (text_position (right_side b1))) SKB_AFFINITY_TRAILING) eqn:Hq;
      [apply affinity_eqb_eq in Hq; contradiction | reflexivity].
Qed.

End CaretProperties.

(** ** Arithmetic properties *)

(** the literal [0.2f] and its product with 5 on binary32 *)
Example b32_zoom_speed :
  float_of_decimal 2 10 = S754_finite false 13421773 (-26).
Proof. vm_compute. reflexivity. Qed.

Example b32_five_times_zoom_speed :
  (float_of_int 5 * float_of_decimal 2 10)%flt = B32.of_Z 1.
Proof. vm_compute. reflexivity. Qed.

Lemma trunc_mag_bounds (m : positive) (e : Z) :
  let v := B32.value (S754_finite false m e) in
  (inject_Z (B32.trunc_mag m e) <= v)%Q
  /\ (v < inject_Z (B32.trunc_mag m e) + 1)%Q
  /\ 0 <= B32.trunc_mag m e.
Proof.
  destruct e as [|p|p]; cbn [B32.value B32.trunc_mag].
  - split; [|split]; unfold Qle, Qlt; simpl; lia.
  - assert (0 < 2 ^ Z.pos p) by (apply Z.pow_pos_nonneg; lia).
    split; [|split]; unfold Qle, Qlt; cbn [Qnum Qden inject_Z Qplus]; nia.
  - assert (Hd : 0 < 2 ^ Z.pos p) by (apply Z.pow_pos_nonneg; lia).
    pose proof (Z.div_mod (Z.pos m) (2 ^ Z.pos p) ltac:(lia)) as Hdm.
    pose proof (Z.mod_pos_bound (Z.pos m) (2 ^ Z.pos p) Hd) as Hmod.
    assert (Hq : 0 <= Z.pos m / 2 ^ Z.pos p) by (apply Z.div_pos; lia).
    split; [|split]; unfold Qle, Qlt; cbn [Qnum Qden inject_Z Qplus];
      rewrite ?Pos2Z.inj_pow; nia.
Qed.

(** [B32.trunc] rounds toward zero: the result has the sign of the float and
    the largest magnitude not above the magnitude of the float. *)
Lemma trunc_toward_zero (f : spec_float) (n : Z) :
  B32.trunc f = Some n ->
  (Qabs (inject_Z n) <= Qabs (B32.value f))%Q
  /\ (Qabs (B32.value f) < Qabs (inject_Z n) + 1)%Q
  /\ (0 <= inject_Z n * B32.value f)%Q.
Proof.
  destruct f as [s|s| |s m e]; cbn [B32.trunc]; try discriminate.
  - intros [= <-]. cbn [B32.value]. repeat split; unfold Qle, Qlt; simpl; lia.
  - intros [= <-].
    destruct (trunc_mag_bounds m e) as (Hlo & Hhi & Hpos).
    cbn zeta in Hlo, Hhi.
    set (v := B32.value (S754_finite false m e)) in *.
    set (t := B32.trunc_mag m e) in *.
    assert (Hv : (0 <= v)%Q).
    { apply Qle_trans with (inject_Z t); [|exact Hlo].
      unfold Qle; simpl; lia. }
    assert (Ht : (0 <= inject_Z t)%Q) by (unfold Qle; simpl; lia).
    destruct s.
    + replace (B32.value (S754_finite true m e)) with (- v)%Q by reflexivity.
      rewrite inject_Z_opp.
      rewrite !Qabs_opp, !Qabs_pos by assumption.
      split; [exact Hlo|split; [exact Hhi|]].
      setoid_replace (- inject_Z t * - v)%Q with (inject_Z t * v)%Q by ring.
      apply Qmult_le_0_compat; assumption.
    + fold v. rewrite !Qabs_pos by assumption.
      split; [exact Hlo|split; [exact Hhi|]].
      apply Qmult_le_0_compat; assumption.
Qed.

Lemma to_int32_in_range (f : spec_float) (t : Z) :
  B32.trunc f = Some t -> in_int32 t = true -> B32.to_int32 f = t.
Proof.
  intros Ht Hr. unfold B32.to_int32, int32_or_indefinite. rewrite Ht, Hr. reflexivity.
Qed.

(** C10.  On binary32 arithmetic [update_ime_rect] makes one call, the
    publish of a rectangle whose four components are integers: each is the
    [int32_t] cast of [view.cx + caret.x * view.scale],
    [view.cy + caret.y * view.scale], [caret.width * view.scale] and
    [caret.height * view.scale] respectively, and whenever that float is
    finite with its integer part in the range of [int32_t], the component is
    the float rounded toward zero: it has the sign of the float, its
    magnitude does not exceed the magnitude of the float and is less than one
    below it. *)
Theorem C10_input_rect_truncates {E : Type} {ED : EditorAPI spec_float E}
        (s : machine spec_float E) :
  let c := ctx s in
  let caret :=
    skb_editor_get_visual_caret
      (editor c) (end_pos (skb_editor_get_current_selection (editor c))) in
  let r := input_rect_of c in
  calls (exec update_ime_rect s) = calls s ++ [ime_set_input_rect r]
  /\ forall (f : spec_float) (n : Z),
      In (f, n) [ ((cx (view c) + vc_x caret * scale (view c))%flt, rect_x r);
                  ((cy (view c) + vc_y caret * scale (view c))%flt, rect_y r);
                  ((vc_width caret * scale (view c))%flt, rect_width r);
                  ((vc_height caret * scale (view c))%flt, rect_height r) ] ->
      forall t : Z,
        B32.trunc f = Some t -> in_int32 t = true ->
        n = t
        /\ (Qabs (inject_Z n) <= Qabs (B32.value f))%Q
        /\ (Qabs (B32.value f) < Qabs (inject_Z n) + 1)%Q
        /\ (0 <= inject_Z n * B32.value f)%Q.
Proof.
  intros c caret r. split; [reflexivity|].
  intros f n Hin t Ht Hr.
  assert (Hn : n = B32.to_int32 f).
  { cbn [In] in Hin.
    destruct Hin as [H|[H|[H|[H|[]]]]]; injection H as <- <-; reflexivity. }
  rewrite (to_int32_in_range f t Ht Hr) in Hn. subst n.
  split; [reflexivity|]. apply trunc_toward_zero. exact Ht.
Qed.










(** ** Runs on the concrete states *)

Local Open Scope string_scope.

(** C1.  On the testbed as created (the text "ab" with the caret after the
    "a", the clipboard holding "clip") the gate is open after an undo, a
    redo and a paste key press, and the character event that follows each of
    them is forwarded to the editor: [z] after CONTROL+Z and after
    CONTROL+SHIFT+Z gives "azb", [v] after the press of CONTROL+V lands
    behind the pasted text and gives "aclipvb".  The press of CONTROL+A
    closes the gate and the repeat of the same key opens it again. *)
Theorem C1_undo_redo_paste_leave_gate_open :
  let after key act mods := exec (testbed_on_key key act mods) demo_state in
  let text (s : machine spec_float RefEditor.t) := RefEditor.doc (editor (ctx s)) in
  let typed cp s := text (exec (testbed_on_char cp) s) in
  let undo := after GLFW_KEY_Z GLFW_PRESS GLFW_MOD_CONTROL in
  let redo := after GLFW_KEY_Z GLFW_PRESS (Z.lor GLFW_MOD_CONTROL GLFW_MOD_SHIFT) in
  let paste := after GLFW_KEY_V GLFW_PRESS GLFW_MOD_CONTROL in
  let select_all := after GLFW_KEY_A GLFW_PRESS GLFW_MOD_CONTROL in
  let select_all_held := exec (testbed_on_key GLFW_KEY_A GLFW_REPEAT GLFW_MOD_CONTROL)
                              select_all in
  (allow_char (ctx undo) = true /\ text undo = "ab" /\ typed 122 undo = "azb")
  /\ (allow_char (ctx redo) = true /\ text redo = "ab" /\ typed 122 redo = "azb")
  /\ (allow_char (ctx paste) = true /\ text paste = "aclipb"
      /\ typed 118 paste = "aclipvb")
  /\ (allow_char (ctx select_all) = false /\ typed 97 select_all = "ab"
      /\ allow_char (ctx select_all_held) = true /\ typed 97 select_all_held = "a").
Proof. vm_compute. repeat split. Qed.

(** A left press followed by a right press leaves both drag modes active;
    the right press while the text selection drag is active is not a no-op:
    it sets [drag_view] and records the anchor. *)
Lemma C2_both_drags_active :
  let s1 := exec (testbed_on_mouse_button (B32.of_Z 0) (B32.of_Z 410) (B32.of_Z 130)
                                          GLFW_MOUSE_BUTTON_LEFT GLFW_PRESS 0)
                 demo_state in
  let s2 := exec (testbed_on_mouse_button (B32.of_Z 1) (B32.of_Z 410) (B32.of_Z 130)
                                          GLFW_MOUSE_BUTTON_RIGHT GLFW_PRESS 0)
                 s1 in
  (drag_view (ctx s1), drag_text (ctx s1)) = (false, true)
  /\ (drag_view (ctx s2), drag_text (ctx s2)) = (true, true)
  /\ anchor_x (view (ctx s1)) = B32.of_Z 0
  /\ anchor_x (view (ctx s2)) = B32.of_Z 410.
Proof. vm_compute. repeat split. Qed.

Lemma C2_witness :
  drag_view (ctx demo_panning_state) = true
  /\ ctx (exec (testbed_on_mouse_button (B32.of_Z 1) (B32.of_Z 500) (B32.of_Z 200)
                                        GLFW_MOUSE_BUTTON_RIGHT GLFW_PRESS 0)
               demo_panning_state)
     = ctx demo_panning_state.
Proof.
  split; [reflexivity|].
  destruct (C2_drag_flags_independent demo_panning_state (B32.of_Z 1) (B32.of_Z 500)
                                      (B32.of_Z 200) 0)
    as [[_ [_ Hnoop]] _].
  apply Hnoop. reflexivity.
Defined.

(** Pressing the LEFT arrow key publishes the rectangle twice; the character
    typed next changes the text and publishes nothing. *)
Lemma C3_press_publishes_twice_char_never :
  let s1 := exec (testbed_on_key GLFW_KEY_LEFT GLFW_PRESS 0) demo_state in
  let s2 := exec (testbed_on_char 120) s1 in
  let at_x x := {| rect_x := x; rect_y := 120; rect_width := 0; rect_height := 20 |} in
  publishes (calls demo_state) = []
  /\ publishes (calls s1) = [at_x 400; at_x 400]
  /\ RefEditor.doc (editor (ctx s1)) = "ab"
  /\ RefEditor.doc (editor (ctx s2)) = "xab"
  /\ publishes (calls s2) = [at_x 400; at_x 400]
  /\ input_rect_of (ctx s2) = at_x 410.
Proof. vm_compute. repeat split. Qed.

(** Teardown of the demo state: the editor is destroyed at position 0 of the
    log, the composition is cancelled at position 4 and the handler cleared
    at position 5. *)
Lemma C4_editor_destroyed_before_ime_teardown :
  let log := skipn (List.length (calls demo_state)) (testbed_destroy demo_state) in
  index_of skb_editor_destroy log = Some 0%nat
  /\ index_of ime_cancel log = Some 4%nat
  /\ index_of (ime_set_handler false) log = Some 5%nat.
Proof. vm_compute. repeat split. Qed.

(** At the mirrored boundary the text to the left runs left to right and the
    text to the right runs right to left.  A triangle oriented along the
    direction of the left side would have its tip at 105 and one along the
    direction of the right side at 95; the left marker, labelled "TR3", has
    its tip at 95 and the right marker, labelled "LE7", at 105, the tips
    drawn at [demo_bidi_boundary], where the directions are the other way
    round. *)
Lemma C5_tips_ignore_directions :
  let draw b := draw_caret_details demo_is_rtl (B32.of_Z 0) (B32.of_Z 0) (B32.of_Z 100)
                                   true [b] in
  let left := left_side demo_mirrored_boundary in
  let right := right_side demo_mirrored_boundary in
  (demo_is_rtl (direction left), demo_is_rtl (direction right)) = (false, true)
  /\ tip_along demo_is_rtl (B32.of_Z 100) (direction left) = B32.of_Z 105
  /\ tip_along demo_is_rtl (B32.of_Z 100) (direction right) = B32.of_Z 95
  /\ tri_tips (draw demo_mirrored_boundary) = [B32.of_Z 95; B32.of_Z 105]
  /\ text_labels (draw demo_mirrored_boundary) = [("TR", 3); ("LE", 7)]
  /\ tri_tips (draw demo_bidi_boundary) = [B32.of_Z 95; B32.of_Z 105].
Proof. vm_compute. repeat split. Qed.

Lemma C5_witness :
  direction (left_side demo_bidi_boundary) <> direction (right_side demo_bidi_boundary)
  /\ direction (left_side demo_next_boundary) = direction (right_side demo_next_boundary)
  /\ affinity (text_position (right_side demo_next_boundary)) <> SKB_AFFINITY_TRAILING
  /\ text_labels (draw_caret_details demo_is_rtl (B32.of_Z 0) (B32.of_Z 0) (B32.of_Z 100)
                                     true [demo_bidi_boundary; demo_next_boundary])
     = [("LE", 3); ("TR", 7); ("LE", 7)].
Proof.
  assert (Hd : direction (left_side demo_bidi_boundary)
               <> direction (right_side demo_bidi_boundary)) by discriminate.
  assert (He : direction (left_side demo_next_boundary)
               = direction (right_side demo_next_boundary)) by reflexivity.
  assert (Ha : affinity (text_position (right_side demo_next_boundary))
               <> SKB_AFFINITY_TRAILING) by discriminate.
  split; [exact Hd|split; [exact He|split; [exact Ha|]]].
  destruct (C5_markers_along_line demo_is_rtl (B32.of_Z 0) (B32.of_Z 0) (B32.of_Z 100)
                                  [demo_bidi_boundary; demo_next_boundary])
    as (_ & Hlabels & _ & Hrule).
  rewrite Hlabels. cbn [flat_map].
  destruct (Hrule demo_bidi_boundary) as (_ & _ & Htwo & _).
  destruct (Hrule demo_next_boundary) as (_ & _ & _ & _ & Hone).
  destruct (Htwo Hd) as [_ ->]. destruct (Hone He Ha) as [_ ->].
  reflexivity.
Defined.

(** A direction-change boundary 10 units before the next one: its own left
    label stays at [top_y + 20], the left label of the next boundary is
    lowered by 15. *)
Lemma C6_offset_misses_own_label :
  let top_y := B32.of_Z 0 in
  (caret_advance demo_bidi_boundary <? float_of_int 40)%flt = true
  /\ left_label_ys (draw_caret_details demo_is_rtl (B32.of_Z 0) top_y (B32.of_Z 100) true
                                       [demo_bidi_boundary])
     = [B32.of_Z 20]
  /\ left_label_ys (draw_caret_details demo_is_rtl (B32.of_Z 0) top_y (B32.of_Z 100) true
                                       [demo_bidi_boundary; demo_next_boundary])
     = [B32.of_Z 20; B32.of_Z 35].
Proof. vm_compute. repeat split. Qed.

Lemma C6_witness :
  direction (left_side demo_bidi_boundary) <> direction (right_side demo_bidi_boundary)
  /\ draws_left_label demo_next_boundary
  /\ left_label_ys (fst (caret_boundary_body
                           demo_is_rtl (B32.of_Z 0) (B32.of_Z 0) (B32.of_Z 100)
                           (snd (caret_boundary_body
                                   demo_is_rtl (B32.of_Z 0) (B32.of_Z 0) (B32.of_Z 100)
                                   (B32.of_Z 0) demo_bidi_boundary))
                           demo_next_boundary))
     = [B32.of_Z 35].
Proof.
  assert (Hd : direction (left_side demo_bidi_boundary)
               <> direction (right_side demo_bidi_boundary)) by discriminate.
  assert (Hn : draws_left_label demo_next_boundary) by (right; discriminate).
  split; [exact Hd|split; [exact Hn|]].
  destruct (C6_overlap_offset_reaches_next_boundary
              demo_is_rtl (B32.of_Z 0) (B32.of_Z 0) (B32.of_Z 100) (B32.of_Z 0)
              demo_bidi_boundary demo_next_boundary [])
    as (_ & _ & Hbidi & _).
  destruct (Hbidi Hd) as (_ & _ & Hnext).
  rewrite (Hnext Hn). vm_compute. reflexivity.
Defined.









(** With the view centre at (-10.5, 120.5) the caret is at (-0.5, 120.5) on
    screen; the rectangle published has x = 0 and y = 120. *)
Example input_rect_of_fraction :
  input_rect_of (ctx demo_fraction_state)
  = {| rect_x := 0; rect_y := 120; rect_width := 0; rect_height := 20 |}.
Proof. vm_compute. reflexivity. Qed.

Lemma C10_witness :
  let c := ctx demo_fraction_state in
  let caret :=
    skb_editor_get_visual_caret
      (editor c) (end_pos (skb_editor_get_current_selection (F := spec_float) (editor c))) in
  let f := (cx (view c) + vc_x caret * scale (view c))%flt in
  B32.trunc f = Some 0
  /\ in_int32 0 = true
  /\ (B32.value f == - (1 # 2))%Q
  /\ rect_x (input_rect_of c) = 0.
Proof.
  intros c caret f.
  assert (Ht : B32.trunc f = Some 0) by (vm_compute; reflexivity).
  assert (Hr : in_int32 0 = true) by reflexivity.
  split; [exact Ht|split; [exact Hr|split; [vm_compute; reflexivity|]]].
  destruct (C10_input_rect_truncates demo_fraction_state) as [_ Hcomp].
  destruct (Hcomp f (rect_x (input_rect_of c)) (or_introl eq_refl) 0 Ht Hr)
    as [Hn _].
  exact Hn.
Defined.

(** ** Further properties of the handlers *)

Local Close Scope string_scope.

Ltac step :=
  cbv beta iota zeta delta
    [exec bind when ret modify_ctx get_ctx emit editor_cmd update_ime_rect
     set_clipboard glfwGetClipboardString fst snd
     set_editor set_allow_char set_view set_drag_view set_drag_text
     set_atlas_scale set_show_glyph_details set_show_caret_details
     set_show_baseline_details];
  cbn [ctx clipboard calls
       editor allow_char view drag_view drag_text atlas_scale
       show_glyph_details show_caret_details show_baseline_details].

Ltac split_eqb x :=
  repeat match goal with
         | |- context [Z.eqb x ?k] => destruct (Z.eqb_spec x k) as [->|?]
         end.

Ltac split_conds :=
  repeat match goal with
         | |- context [if ?b then _ else _] => destruct b; step
         end.

Section MoreHandlerProperties.
Context {F : Type} {FO : FloatOps F} {E : Type} {ED : EditorAPI F E}.

Abbreviation state := (machine F E).

Lemma is_key_down_false (act : Z) :
  is_key_down act = false -> (act =? GLFW_PRESS) = false /\ (act =? GLFW_REPEAT) = false.
Proof. unfold is_key_down. intros H. apply orb_false_iff in H. exact H. Qed.

(** A key event whose action is neither PRESS nor REPEAT changes nothing. *)
Lemma on_key_not_down (s : state) (key act mods : Z) :
  is_key_down act = false -> exec (testbed_on_key key act mods) s = s.
Proof.
  intros H. destruct (is_key_down_false act H) as [Hp Hr].
  destruct s as [c clip log]. unfold testbed_on_key. rewrite Hp, Hr. reflexivity.
Qed.

Lemma on_event_keeps_gate (s : state) (ev : input_event F) :
  is_key_down_event ev = false ->
  allow_char (ctx (exec (on_event ev) s)) = allow_char (ctx s).
Proof.
  intros Hev. destruct s as [c clip log]. destruct c as [e ac v dv dt a g cd bd].
  destruct ev as [key act mods|cp|now x y button act mods|x y|x y dx dy mods|event text cursor];
    cbn [on_event is_key_down_event] in *.
  - rewrite on_key_not_down by exact Hev. reflexivity.
  - unfold testbed_on_char. step. destruct ac; reflexivity.
  - unfold testbed_on_mouse_button.
    split_eqb button; split_eqb act; cbn; step;
      destruct dv; destruct dt; cbn; step; reflexivity.
  - unfold testbed_on_mouse_move. step. destruct dv; destruct dt; step; reflexivity.
  - reflexivity.
  - destruct event; reflexivity.
Qed.

(** X1.  Only a key event with action PRESS or REPEAT changes the allow-char
    gate: over any sequence of events without one, the gate keeps its
    value. *)
Theorem gate_changes_only_on_key_down (evs : list (input_event F)) (s : state) :
  forallb (fun ev => negb (is_key_down_event ev)) evs = true ->
  allow_char (ctx (run_events evs s)) = allow_char (ctx s).
Proof.
  revert s. induction evs as [|ev evs IH]; intros s Hevs; [reflexivity|].
  cbn [forallb] in Hevs. apply andb_true_iff in Hevs. destruct Hevs as [Hev Hrest].
  apply negb_true_iff in Hev.
  cbn [run_events fold_left]. fold (run_events evs (exec (on_event ev) s)).
  rewrite IH by exact Hrest. apply on_event_keeps_gate. exact Hev.
Qed.

(** X2.  Once the gate is closed, every character event is dropped until the
    next key goes down: a sequence of events without a key PRESS or REPEAT
    ends in the same state as the sequence with its character events
    removed. *)
Theorem closed_gate_drops_every_char (evs : list (input_event F)) (s : state) :
  allow_char (ctx s) = false ->
  forallb (fun ev => negb (is_key_down_event ev)) evs = true ->
  run_events evs s = run_events (filter (fun ev => negb (is_char_event ev)) evs) s.
Proof.
  revert s. induction evs as [|ev evs IH]; intros s Hgate Hevs; [reflexivity|].
  cbn [forallb] in Hevs. apply andb_true_iff in Hevs. destruct Hevs as [Hev Hrest].
  apply negb_true_iff in Hev.
  assert (Hgate' : allow_char (ctx (exec (on_event ev) s)) = false)
    by (rewrite on_event_keeps_gate by exact Hev; exact Hgate).
  cbn [run_events fold_left filter].
  fold (run_events evs (exec (on_event ev) s)).
  destruct (is_char_event ev) eqn:Hc; cbn [negb].
  - destruct ev; try discriminate Hc. cbn [on_event] in *.
    rewrite on_char_dropped by exact Hgate.
    apply IH; assumption.
  - cbn [run_events fold_left].
    fold (run_events (filter (fun ev => negb (is_char_event ev)) evs)
                     (exec (on_event ev) s)).
    apply IH; assumption.
Qed.


Ltac close_log log :=
  first [ exists (@nil call); split; [rewrite app_nil_r; reflexivity | reflexivity]
        | eexists; split; [repeat rewrite <- app_assoc; reflexivity | reflexivity] ].

(** X3.  What a handler leaves alone: the drag flags change on mouse-button
    events only, the clipboard on key events only, the view on pointer events
    (button, move, scroll) only; and a handler only appends to the log, and
    only publishes of the input rectangle, composition cancels, clipboard
    writes and close requests. *)
Theorem handlers_frame (ev : input_event F) (s : state) :
  let s' := exec (on_event ev) s in
  (is_mouse_button_event ev = false ->
   drag_view (ctx s') = drag_view (ctx s) /\ drag_text (ctx s') = drag_text (ctx s))
  /\ (is_key_event ev = false -> clipboard s' = clipboard s)
  /\ (is_pointer_event ev = false -> view (ctx s') = view (ctx s))
  /\ exists l, calls s' = calls s ++ l /\ forallb is_handler_call l = true.
Proof.
  destruct s as [c clip log]. destruct c as [e ac v dv dt a g cd bd].
  destruct ev as [key act mods|cp|now x y button act mods|x y|x y dx dy mods|event text cursor];
    cbn [on_event is_mouse_button_event is_key_event is_pointer_event].
  - unfold testbed_on_key.
    destruct (truthy (Z.land mods GLFW_MOD_CONTROL));
      destruct (Z.land mods GLFW_MOD_SHIFT =? 0) eqn:Hshift;
      unfold truthy; rewrite ?Hshift;
      split_eqb act; split_eqb key; cbn; step; split_conds;
      (split; [intros _; split; reflexivity
              |split; [intros H; discriminate H
                      |split; [intros _; reflexivity | close_log log]]]).
  - unfold testbed_on_char. step. destruct ac; step;
      (split; [intros _; split; reflexivity
              |split; [intros _; reflexivity
                      |split; [intros _; reflexivity | close_log log]]]).
  - unfold testbed_on_mouse_button.
    split_eqb button; split_eqb act; cbn; step;
      destruct dv; destruct dt; cbn; step;
      (split; [intros H; discriminate H
              |split; [intros _; reflexivity
                      |split; [intros H; discriminate H | close_log log]]]).
  - unfold testbed_on_mouse_move. step. destruct dv; destruct dt; step;
      (split; [intros _; split; reflexivity
              |split; [intros _; reflexivity
                      |split; [intros H; discriminate H | close_log log]]]).
  - unfold testbed_on_mouse_scroll. step.
    split; [intros _; split; reflexivity
           |split; [intros _; reflexivity
                   |split; [intros H; discriminate H | close_log log]]].
  - destruct event; unfold ime_handler; step;
      (split; [intros _; split; reflexivity
              |split; [intros _; reflexivity
                      |split; [intros _; reflexivity | close_log log]]]).
Qed.

Lemma land_through_mask (mods mods' mask bit : Z) :
  Z.land mask bit = bit ->
  Z.land mods mask = Z.land mods' mask ->
  Z.land mods bit = Z.land mods' bit.
Proof.
  intros Hbit H.
  rewrite <- Hbit, !Z.land_assoc, H. reflexivity.
Qed.

(** X4.  Of the platform's modifier bits only SHIFT and CONTROL are looked
    at: two masks that agree on these two bits give the same result for every
    key event and every mouse-button event. *)
Theorem only_shift_and_control_matter (s : state) (mods mods' : Z) :
  Z.land mods (Z.lor GLFW_MOD_SHIFT GLFW_MOD_CONTROL)
  = Z.land mods' (Z.lor GLFW_MOD_SHIFT GLFW_MOD_CONTROL) ->
  (forall key act,
      exec (testbed_on_key key act mods) s = exec (testbed_on_key key act mods') s)
  /\ (forall now mouse_x mouse_y button act,
      exec (testbed_on_mouse_button now mouse_x mouse_y button act mods) s
      = exec (testbed_on_mouse_button now mouse_x mouse_y button act mods') s).
Proof.
  intros H.
  assert (Hs : Z.land mods GLFW_MOD_SHIFT = Z.land mods' GLFW_MOD_SHIFT)
    by (apply (land_through_mask _ _ _ _ eq_refl H)).
  assert (Hc : Z.land mods GLFW_MOD_CONTROL = Z.land mods' GLFW_MOD_CONTROL)
    by (apply (land_through_mask _ _ _ _ eq_refl H)).
  split; intros.
  - unfold testbed_on_key. rewrite Hs, Hc. reflexivity.
  - unfold testbed_on_mouse_button. rewrite Hs, Hc. reflexivity.
Qed.

(** X5.  A key event issues at most one editor command, also when it is a
    press and runs both blocks: the editor after the event is the editor
    before with one command (or none) applied.  For each of the nine editing
    keys a press or repeat applies [skb_editor_process_key_pressed] once,
    with the translated modifier mask; TAB inserts a tab character on a press
    and nothing on a repeat. *)
Theorem key_event_issues_one_command (s : state) (key act mods : Z) :
  let s' := exec (testbed_on_key key act mods) s in
  (exists c, editor (ctx s') = run_command c (editor (ctx s)))
  /\ (forall k, In (key, k) editing_keys -> is_key_down act = true ->
      editor (ctx s')
      = skb_editor_process_key_pressed (editor (ctx s)) k (translated_mods mods))
  /\ (key = GLFW_KEY_TAB -> is_key_down act = true ->
      editor (ctx s')
      = if act =? GLFW_PRESS
        then skb_editor_insert_codepoint (editor (ctx s)) 9
        else editor (ctx s)).
Proof.
  destruct s as [c clip log]. destruct c as [e ac v dv dt a g cd bd].
  cbn zeta. split; [|split].
  - unfold testbed_on_key.
    destruct (truthy (Z.land mods GLFW_MOD_CONTROL));
      destruct (Z.land mods GLFW_MOD_SHIFT =? 0) eqn:Hshift;
      unfold truthy; rewrite ?Hshift;
      split_eqb act; split_eqb key; cbn; step; split_conds;
      first [ exists cmd_none; reflexivity
            | exists (cmd_paste clip); reflexivity
            | exists cmd_undo; reflexivity
            | exists cmd_redo; reflexivity
            | exists cmd_select_all; reflexivity
            | exists cmd_select_none; reflexivity
            | exists cmd_cut; reflexivity
            | exists (cmd_insert 9); reflexivity
            | eexists (cmd_key _ _); reflexivity ].
  - intros k Hin Hdown. unfold is_key_down in Hdown.
    cbn [In editing_keys] in Hin.
    unfold testbed_on_key, translated_mods.
    repeat (destruct Hin as [Hin|Hin]; [injection Hin as <- <-|]); [..|contradiction];
      destruct (truthy (Z.land mods GLFW_MOD_CONTROL));
      destruct (Z.land mods GLFW_MOD_SHIFT =? 0) eqn:Hshift;
      unfold truthy; rewrite ?Hshift;
      split_eqb act; try discriminate Hdown; cbn; step; reflexivity.
  - intros -> Hdown. unfold is_key_down in Hdown. unfold testbed_on_key.
    destruct (truthy (Z.land mods GLFW_MOD_CONTROL));
      destruct (Z.land mods GLFW_MOD_SHIFT =? 0) eqn:Hshift;
      unfold truthy; rewrite ?Hshift;
      split_eqb act; try discriminate Hdown; cbn; step; reflexivity.
Qed.

(** X6.  ESCAPE on a press clears the selection when it holds text and asks
    the window to close otherwise, never both; on a repeat it does neither. *)
Theorem escape_clears_or_closes (s : state) (mods : Z) :
  let e := editor (ctx s) in
  let has_text :=
    0 <? skb_editor_get_selection_text_utf32_count
           e (skb_editor_get_current_selection e) in
  let pressed := exec (testbed_on_key GLFW_KEY_ESCAPE GLFW_PRESS mods) s in
  let repeated := exec (testbed_on_key GLFW_KEY_ESCAPE GLFW_REPEAT mods) s in
  editor (ctx pressed) = (if has_text then skb_editor_select_none e else e)
  /\ close_requests (calls pressed)
     = (close_requests (calls s) + (if has_text then 0 else 1))%nat
  /\ editor (ctx repeated) = e
  /\ close_requests (calls repeated) = close_requests (calls s).
Proof.
  destruct s as [c clip log]. destruct c as [e ac v dv dt a g cd bd].
  cbn zeta. cbn [ctx editor].
  unfold testbed_on_key, close_requests. cbn. step.
  destruct (0 <? skb_editor_get_selection_text_utf32_count
                   e (skb_editor_get_current_selection e)); step;
    repeat rewrite filter_app; repeat rewrite length_app; cbn;
    repeat split; lia.
Qed.

(** X7.  F7, F8 and F9 toggle the baseline, caret and glyph detail switch on
    a press and leave the two other switches and the editor alone; a second
    press restores the switch; a repeat of the key does not toggle. *)
Theorem detail_keys_toggle (s : state) (mods : Z) :
  let flags (t : state) :=
    (show_baseline_details (ctx t), show_caret_details (ctx t),
     show_glyph_details (ctx t)) in
  let press key t := exec (testbed_on_key key GLFW_PRESS mods) t in
  let repeat_ key t := exec (testbed_on_key key GLFW_REPEAT mods) t in
  flags (press GLFW_KEY_F7 s)
  = (negb (show_baseline_details (ctx s)), show_caret_details (ctx s),
     show_glyph_details (ctx s))
  /\ flags (press GLFW_KEY_F8 s)
     = (show_baseline_details (ctx s), negb (show_caret_details (ctx s)),
        show_glyph_details (ctx s))
  /\ flags (press GLFW_KEY_F9 s)
     = (show_baseline_details (ctx s), show_caret_details (ctx s),
        negb (show_glyph_details (ctx s)))
  /\ (forall key, In key [GLFW_KEY_F7; GLFW_KEY_F8; GLFW_KEY_F9] ->
      flags (press key (press key s)) = flags s
      /\ flags (repeat_ key s) = flags s
      /\ editor (ctx (press key s)) = editor (ctx s)).
Proof.
  destruct s as [c clip log]. destruct c as [e ac v dv dt a g cd bd].
  cbn zeta. cbn [ctx editor show_baseline_details show_caret_details show_glyph_details].
  unfold testbed_on_key.
  split; [|split; [|split]].
  - cbn. step. reflexivity.
  - cbn. step. reflexivity.
  - cbn. step. reflexivity.
  - intros key Hin. cbn [In] in Hin.
    destruct Hin as [<-|[<-|[<-|[]]]]; cbn; step;
      rewrite ?negb_involutive; repeat split; reflexivity.
Qed.


(** X8.  A left-button press starts one text selection: when no text drag is
    active it cancels the composition once, marks the drag and sends one
    click to the editor, at the text-space position of the mouse, with the
    translated modifiers and the current time; when a text drag is already
    active it changes nothing in the context and cancels nothing. *)
Theorem left_press_starts_one_selection
        (s : state) (now mouse_x mouse_y : F) (mods : Z) :
  let s' := exec (testbed_on_mouse_button now mouse_x mouse_y
                                          GLFW_MOUSE_BUTTON_LEFT GLFW_PRESS mods) s in
  let pos := transform_mouse_pos (ctx s) mouse_x mouse_y in
  (drag_text (ctx s) = false ->
   editor (ctx s')
   = skb_editor_process_mouse_click (editor (ctx s)) (vec_x pos) (vec_y pos)
                                    (translated_mods mods) now
   /\ drag_text (ctx s') = true
   /\ ime_cancels (calls s') = S (ime_cancels (calls s)))
  /\ (drag_text (ctx s) = true ->
      ctx s' = ctx s /\ ime_cancels (calls s') = ime_cancels (calls s)).
Proof.
  destruct s as [c clip log]. destruct c as [e ac v dv dt a g cd bd].
  cbn zeta. cbn [ctx editor drag_text].
  unfold testbed_on_mouse_button, translated_mods, ime_cancels, transform_mouse_pos.
  destruct (truthy (Z.land mods GLFW_MOD_CONTROL));
    destruct (truthy (Z.land mods GLFW_MOD_SHIFT));
    cbn; step; (split; intros Hdt; subst dt; cbn; step;
                repeat rewrite filter_app; repeat rewrite length_app; cbn;
                repeat split; try reflexivity; lia).
Qed.

(** X9.  A mouse-button event for a button other than left and right, or
    with an action other than PRESS and RELEASE, only publishes the input
    rectangle: the context and the clipboard stay as they are. *)
Theorem unbound_button_only_publishes
        (s : state) (now mouse_x mouse_y : F) (button act mods : Z) :
  (button <> GLFW_MOUSE_BUTTON_LEFT /\ button <> GLFW_MOUSE_BUTTON_RIGHT)
  \/ (act <> GLFW_PRESS /\ act <> GLFW_RELEASE) ->
  exec (testbed_on_mouse_button now mouse_x mouse_y button act mods) s
  = {| ctx := ctx s; clipboard := clipboard s;
       calls := calls s ++ [ime_set_input_rect (input_rect_of (ctx s))] |}.
Proof.
  intros H. destruct s as [c clip log]. cbn [ctx clipboard calls].
  unfold testbed_on_mouse_button.
  split_eqb button; split_eqb act; cbn;
    try (exfalso; destruct H as [[H1 H2]|[H1 H2]]; congruence);
    reflexivity.
Qed.

(** X10.  A mouse move does what the active drags ask for and nothing more.
    With no drag active the state is unchanged and nothing is published; each
    active drag adds one publish.  The view moves only while the view drag is
    active, the editor receives a drag command only while the text drag is
    active, and when both are active the text position of the drag command is
    computed in the view the same move has just panned. *)
Theorem mouse_move_follows_drags (s : state) (mouse_x mouse_y : F) :
  let s' := exec (testbed_on_mouse_move mouse_x mouse_y) s in
  let view' := if drag_view (ctx s)
               then view_drag_move (view (ctx s)) mouse_x mouse_y
               else view (ctx s) in
  let pos := transform_mouse_pos (set_view view' (ctx s)) mouse_x mouse_y in
  (drag_view (ctx s) = false -> drag_text (ctx s) = false -> s' = s)
  /\ view (ctx s') = view'
  /\ editor (ctx s')
     = (if drag_text (ctx s)
        then skb_editor_process_mouse_drag (editor (ctx s)) (vec_x pos) (vec_y pos)
        else editor (ctx s))
  /\ List.length (publishes (calls s'))
     = (List.length (publishes (calls s))
        + (if drag_view (ctx s) then 1 else 0)
        + (if drag_text (ctx s) then 1 else 0))%nat.
Proof.
  destruct s as [c clip log]. destruct c as [e ac v dv dt a g cd bd].
  cbn zeta. cbn [ctx editor view drag_view drag_text].
  unfold testbed_on_mouse_move, transform_mouse_pos. step.
  destruct dv; destruct dt; step;
    repeat rewrite publishes_app; repeat rewrite length_app; cbn;
    repeat split; try reflexivity; try discriminate; lia.
Qed.

End MoreHandlerProperties.

(** ** The atlas overlay scale and the zero view scale, on binary32 *)

Lemma f10_press_atlas {E : Type} {ED : EditorAPI spec_float E}
      (s : machine spec_float E) (mods : Z) :
  atlas_scale (ctx (exec (testbed_on_key GLFW_KEY_F10 GLFW_PRESS mods) s))
  = (let a := (atlas_scale (ctx s) + float_of_decimal 25 100)%flt in
     if (float_of_decimal 101 100 <? a)%flt then float_of_int 0 else a).
Proof.
  destruct s as [c clip log]. destruct c as [e ac v dv dt a g cd bd].
  unfold testbed_on_key. cbn [ctx atlas_scale].
  destruct (truthy (Z.land mods GLFW_MOD_CONTROL));
    destruct (truthy (Z.land mods GLFW_MOD_SHIFT)); cbn -[fltb fadd float_of_decimal float_of_int];
    step; cbn zeta;
    destruct (float_of_decimal 101 100 <? a + float_of_decimal 25 100)%flt; reflexivity.
Qed.

(** X11.  After a press of F10 the atlas overlay scale is never above 1.01,
    whatever it was before; from 0 it steps through 0.25, 0.5, 0.75 and 1.0
    and returns to 0 with the fifth press. *)
Theorem atlas_scale_cycles {E : Type} {ED : EditorAPI spec_float E}
        (s : machine spec_float E) (mods : Z) :
  (float_of_decimal 101 100
   <? atlas_scale (ctx (exec (testbed_on_key GLFW_KEY_F10 GLFW_PRESS mods) s)))%flt
  = false
  /\ (atlas_scale (ctx s) = float_of_int 0 ->
      map (fun n => atlas_scale (ctx (f10_presses n mods s))) [1; 2; 3; 4; 5]%nat
      = [float_of_decimal 25 100; float_of_decimal 50 100; float_of_decimal 75 100;
         float_of_int 1; float_of_int 0]).
Proof.
  split.
  - rewrite f10_press_atlas. cbn zeta.
    destruct (float_of_decimal 101 100 <? atlas_scale (ctx s) + float_of_decimal 25 100)%flt
      eqn:Hgt; [vm_compute; reflexivity | exact Hgt].
  - intros H0. unfold f10_presses, Nat.iter. cbn [map nat_rect].
    repeat rewrite f10_press_atlas. rewrite H0. vm_compute. reflexivity.
Qed.

Lemma div_by_zero_not_finite (a : spec_float) (sgn : bool) :
  B32.trunc (B32.div a (S754_zero sgn)) = None.
Proof. destruct a as [s|s| |s m e]; reflexivity. Qed.

(** X12.  With a view scale of zero (plus or minus) [transform_mouse_pos]
    yields no finite coordinate for any mouse position: both components are
    an infinity or NaN. *)
Theorem zero_scale_has_no_text_point {E : Type} (c : testbed_context_t spec_float E)
        (mouse_x mouse_y : spec_float) (sgn : bool) :
  scale (view c) = S754_zero sgn ->
  B32.trunc (vec_x (transform_mouse_pos c mouse_x mouse_y)) = None
  /\ B32.trunc (vec_y (transform_mouse_pos c mouse_x mouse_y)) = None.
Proof.
  intros Hs. unfold transform_mouse_pos. cbn [vec_x vec_y fdiv fsub binary32].
  rewrite Hs. split; apply div_by_zero_not_finite.
Qed.

(** ** Properties of [testbed_create] *)

Section CreateProperties.
Context {F : Type} {FO : FloatOps F} {E : Type} {ED : EditorAPI F E}.
Variable add_font_ok : string -> bool.
Variable new_editor : E.
Variable set_text_utf8 : E -> string -> E.

Abbreviation load := (load_fonts add_font_ok).
Abbreviation create := (testbed_create add_font_ok new_editor set_text_utf8).
Abbreviation all_ok :=
  (forallb (fun pf : string * skb_font_family_t => add_font_ok (fst pf))).
Abbreviation add_calls :=
  (map (fun pf : string * skb_font_family_t =>
          skb_font_collection_add_font (fst pf) (snd pf))).

Lemma load_fonts_all_ok (fonts : list (string * skb_font_family_t)) :
  all_ok fonts = true -> load fonts = (true, add_calls fonts).
Proof.
  induction fonts as [|[path family] rest IH]; intros H; [reflexivity|].
  cbn [forallb fst] in H. apply andb_true_iff in H. destruct H as [Hp Hrest].
  cbn [load_fonts map fst snd]. rewrite Hp, (IH Hrest). reflexivity.
Qed.

Lemma load_fonts_first_failure
      (pre post : list (string * skb_font_family_t)) (path : string)
      (family : skb_font_family_t) :
  all_ok pre = true -> add_font_ok path = false ->
  load (pre ++ (path, family) :: post)
  = (false, add_calls pre
            ++ [skb_font_collection_add_font path family;
                skb_debug_log ("Failed to load " ++ path ++ newline)%string]).
Proof.
  intros Hpre Hfail.
  induction pre as [|[p f] rest IH].
  - cbn [app load_fonts map]. rewrite Hfail. reflexivity.
  - cbn [forallb fst] in Hpre. apply andb_true_iff in Hpre. destruct Hpre as [Hp Hrest].
    cbn [app load_fonts map fst snd]. rewrite Hp, (IH Hrest). reflexivity.
Qed.

Lemma fonts_tried_app (l1 l2 : list create_call) :
  fonts_tried (l1 ++ l2) = fonts_tried l1 ++ fonts_tried l2.
Proof. apply flat_map_app. Qed.

Lemma testbed_calls_app (l1 l2 : list create_call) :
  testbed_calls (l1 ++ l2) = testbed_calls l1 ++ testbed_calls l2.
Proof. apply flat_map_app. Qed.

Lemma fonts_tried_add_calls (fonts : list (string * skb_font_family_t)) :
  fonts_tried (add_calls fonts) = map fst fonts.
Proof.
  unfold fonts_tried. induction fonts as [|[p f] rest IH]; [reflexivity|].
  cbn [map flat_map fst snd app]. f_equal. exact IH.
Qed.

Lemma testbed_calls_add_calls (fonts : list (string * skb_font_family_t)) :
  testbed_calls (add_calls fonts) = [].
Proof.
  unfold testbed_calls. induction fonts as [|[p f] rest IH]; [reflexivity|].
  cbn [map flat_map fst snd app]. exact IH.
Qed.

Lemma no_editor_in_add_calls (fonts : list (string * skb_font_family_t)) :
  existsb is_create_editor (add_calls fonts) = false.
Proof.
  induction fonts as [|[p f] rest IH]; [reflexivity|].
  cbn [map existsb is_create_editor orb fst snd]. exact IH.
Qed.

Lemma fonts_tried_testbed_calls (l : list call) :
  fonts_tried (map testbed_call l) = [].
Proof.
  unfold fonts_tried. induction l as [|c rest IH]; [reflexivity|].
  cbn [map flat_map app]. exact IH.
Qed.

Lemma testbed_calls_map (l : list call) :
  testbed_calls (map testbed_call l) = l.
Proof.
  unfold testbed_calls. induction l as [|c rest IH]; [reflexivity|].
  cbn [map flat_map app]. f_equal. exact IH.
Qed.

(** X13.  When a font fails to load, [testbed_create] returns NULL at the
    first such font: the fonts before it have been added, the fonts after it
    are not tried, the failure is logged, no editor is created and no handler
    registered, and the context goes through the whole teardown, including
    the cancel of the composition and the clearing of the handler
    registration. *)
Theorem create_stops_at_first_missing_font
        (clip : option string) (pre post : list (string * skb_font_family_t))
        (path : string) (family : skb_font_family_t) :
  testbed_fonts = pre ++ (path, family) :: post ->
  all_ok pre = true ->
  add_font_ok path = false ->
  let log := snd (create clip) in
  fst (create clip) = None
  /\ fonts_tried log = map fst pre ++ [path]
  /\ In (skb_debug_log ("Failed to load " ++ path ++ newline)%string) log
  /\ existsb is_create_editor log = false
  /\ testbed_calls log
     = [memset_ctx; skb_editor_destroy; skb_font_collection_destroy;
        skb_temp_alloc_destroy; memset_ctx; ime_cancel; ime_set_handler false;
        skb_free_ctx].
Proof.
  intros Hfonts Hpre Hfail log. subst log.
  unfold testbed_create. rewrite Hfonts.
  rewrite (load_fonts_first_failure pre post path family Hpre Hfail).
  cbn [fst snd]. split; [reflexivity|].
  split; [|split; [|split]].
  - rewrite !fonts_tried_app, fonts_tried_add_calls, fonts_tried_testbed_calls.
    cbn. rewrite app_nil_r. reflexivity.
  - apply in_or_app. right. apply in_or_app. left.
    apply in_or_app. right. right. left. reflexivity.
  - rewrite !existsb_app, no_editor_in_add_calls. reflexivity.
  - rewrite !testbed_calls_app, testbed_calls_add_calls, testbed_calls_map.
    reflexivity.
Qed.

(** X14.  When every font loads, [testbed_create] returns the context with
    the editor holding the text, the gate closed, no drag active, the caret
    details switched on and the view at (400, 120) with scale 1; all eleven
    fonts have been added in order, one editor created, the handler
    registered and, after that, the input rectangle published once; no
    teardown call is made. *)
Theorem create_succeeds_when_fonts_load (clip : option string) :
  all_ok testbed_fonts = true ->
  let log := snd (create clip) in
  exists s,
    fst (create clip) = Some s
    /\ ctx s = created_context (set_text_utf8 new_editor bidiText)
    /\ clipboard s = clip
    /\ calls s = [ime_set_handler true; ime_set_input_rect (input_rect_of (ctx s))]
    /\ fonts_tried log = map fst testbed_fonts
    /\ List.length (filter is_create_editor log) = 1%nat
    /\ testbed_calls log = memset_ctx :: calls s.
Proof.
  intros Hok log. subst log.
  unfold testbed_create. rewrite (load_fonts_all_ok testbed_fonts Hok).
  cbn [fst snd]. eexists. split; [reflexivity|].
  split; [reflexivity|split; [reflexivity|split; [reflexivity|]]].
  split; [|split]; reflexivity.
Qed.

End CreateProperties.

(** ** Properties of the caret-boundary loop *)

Section CaretLoopProperties.
Context {F : Type} {FO : FloatOps F}.
Variable skb_is_rtl : Z -> bool.
Variables ox top_y bot_y : F.

Local Notation "# n" := (float_of_int n) (at level 5, n at level 0, format "# n").
Abbreviation body := (caret_boundary_body skb_is_rtl ox top_y bot_y).
Abbreviation loop := (caret_boundary_loop skb_is_rtl ox top_y bot_y).

Abbreviation two_heights := (label_heights top_y).

Lemma loop_cons (off : F) (b : caret_boundary F) (rest : list (caret_boundary F)) :
  loop off (b :: rest) = fst (body off b) ++ loop (snd (body off b)) rest.
Proof. simpl. destruct (body off b). reflexivity. Qed.

Lemma left_label_ys_app (l1 l2 : list (draw_cmd F)) :
  left_label_ys (l1 ++ l2) = left_label_ys l1 ++ left_label_ys l2.
Proof. apply flat_map_app. Qed.

Lemma right_label_ys_app (l1 l2 : list (draw_cmd F)) :
  right_label_ys (l1 ++ l2) = right_label_ys l1 ++ right_label_ys l2.
Proof. apply flat_map_app. Qed.

Lemma body_keeps_two_heights (off : F) (b : caret_boundary F) :
  off = #0 \/ off = #15 ->
  Forall two_heights (left_label_ys (fst (body off b)))
  /\ Forall (fun y => y = (top_y + #20)%flt) (right_label_ys (fst (body off b)))
  /\ (snd (body off b) = #0 \/ snd (body off b) = #15).
Proof.
  intros Hoff.
  assert (Hleft : label_heights top_y (top_y + #20 + off)%flt)
    by (destruct Hoff as [-> | ->]; [left|right]; reflexivity).
  assert (Hover : overlap_offset (caret_advance b) = #0
                  \/ overlap_offset (caret_advance b) = #15)
    by (unfold overlap_offset; destruct (caret_advance b <? #40)%flt; auto).
  unfold caret_boundary_body.
  destruct (negb (direction (left_side b) =? direction (right_side b)));
    [|destruct (affinity_eqb (affinity (text_position (right_side b))) SKB_AFFINITY_TRAILING)];
    cbn [fst snd left_label_ys right_label_ys flat_map app];
    (split; [|split]);
    try apply Forall_nil; try (apply Forall_cons; [|apply Forall_nil]);
    auto.
Qed.

Lemma loop_keeps_two_heights (iter : list (caret_boundary F)) (off : F) :
  off = #0 \/ off = #15 ->
  Forall two_heights (left_label_ys (loop off iter))
  /\ Forall (fun y => y = (top_y + #20)%flt) (right_label_ys (loop off iter)).
Proof.
  revert off. induction iter as [|b rest IH]; intros off Hoff.
  - split; constructor.
  - rewrite loop_cons, left_label_ys_app, right_label_ys_app.
    destruct (body_keeps_two_heights off b Hoff) as (Hl & Hr & Hnext).
    destruct (IH _ Hnext) as [IHl IHr].
    split; apply Forall_app; split; assumption.
Qed.

(** X15.  Along a whole line the overlap offset is only ever 0 or 15: every
    left-side label is drawn at [top_y + 20] or 15 below it, and every
    right-side label at [top_y + 20], whatever the boundaries and their
    advances are. *)
Theorem labels_sit_at_two_heights (show : bool) (iter : list (caret_boundary F)) :
  let cmds := draw_caret_details skb_is_rtl ox top_y bot_y show iter in
  Forall two_heights (left_label_ys cmds)
  /\ Forall (fun y => y = (top_y + #20)%flt) (right_label_ys cmds).
Proof.
  unfold draw_caret_details. destruct show.
  - apply loop_keeps_two_heights. left. reflexivity.
  - split; constructor.
Qed.

Lemma body_counts (off : F) (b : caret_boundary F) :
  boundary_lines (fst (body off b)) = [(ox + caret_x b)%flt]
  /\ List.length (text_labels (fst (body off b))) = List.length (tri_tips (fst (body off b)))
  /\ (1 <= List.length (tri_tips (fst (body off b))) <= 2)%nat.
Proof.
  unfold caret_boundary_body.
  destruct (negb (direction (left_side b) =? direction (right_side b)));
    [|destruct (affinity_eqb (affinity (text_position (right_side b))) SKB_AFFINITY_TRAILING)];
    cbn; repeat split; lia.
Qed.

Lemma loop_counts (iter : list (caret_boundary F)) (off : F) :
  boundary_lines (loop off iter) = map (fun b => (ox + caret_x b)%flt) iter
  /\ List.length (text_labels (loop off iter)) = List.length (tri_tips (loop off iter))
  /\ (List.length iter <= List.length (tri_tips (loop off iter)) <= 2 * List.length iter)%nat.
Proof.
  revert off. induction iter as [|b rest IH]; intros off.
  - cbn. repeat split; lia.
  - rewrite loop_cons.
    destruct (body_counts off b) as (Hl & Ht & Hn).
    destruct (IH (snd (body off b))) as (IHl & IHt & IHn).
    unfold boundary_lines, text_labels, tri_tips in *.
    rewrite !flat_map_app, !length_app.
    rewrite Hl, IHl, Ht, IHt. cbn [map app List.length].
    repeat split; lia.
Qed.

(** X16.  With the caret details switched off nothing is drawn.  Switched on,
    the loop draws one vertical line per boundary, at [ox + caret_x], in the
    order of the iterator, and as many text labels as triangles: at least
    one and at most two per boundary. *)
Theorem caret_details_counts (show : bool) (iter : list (caret_boundary F)) :
  let cmds := draw_caret_details skb_is_rtl ox top_y bot_y show iter in
  (show = false -> cmds = [])
  /\ (show = true ->
      boundary_lines cmds = map (fun b => (ox + caret_x b)%flt) iter
      /\ List.length (text_labels cmds) = List.length (tri_tips cmds)
      /\ (List.length iter <= List.length (tri_tips cmds) <= 2 * List.length iter)%nat).
Proof.
  unfold draw_caret_details. split; intros ->; [reflexivity|].
  apply loop_counts.
Qed.

End CaretLoopProperties.

(** ** Properties of the selection highlight *)

Lemma cell_selected_iff (range : Z * Z) (edit_text_offset cp_idx : Z) :
  cell_selected range edit_text_offset cp_idx = true
  <-> fst range <= edit_text_offset + cp_idx < snd range.
Proof.
  unfold cell_selected. rewrite andb_true_iff, Z.leb_le, Z.ltb_lt. lia.
Qed.

Lemma selected_cells_length (lo hi edit_text_offset range_start : Z) (n : nat) :
  Z.of_nat (List.length (selected_cells (lo, hi) edit_text_offset range_start n))
  = Z.max 0 (Z.min hi (edit_text_offset + range_start + Z.of_nat n)
             - Z.max lo (edit_text_offset + range_start)).
Proof.
  unfold selected_cells. induction n as [|n IH].
  - cbn. lia.
  - rewrite seq_S, map_app, filter_app, length_app, Nat2Z.inj_add, IH.
    cbn [map filter plus].
    destruct (cell_selected (lo, hi) edit_text_offset (range_start + Z.of_nat n)) eqn:Hc.
    + apply cell_selected_iff in Hc. cbn [fst snd List.length] in *. lia.
    + assert (Hn : ~ (lo <= edit_text_offset + (range_start + Z.of_nat n) < hi)).
      { intros H. apply (cell_selected_iff (lo, hi)) in H. congruence. }
      cbn [List.length]. lia.
Qed.

(** X17.  The selection colour behind the code points of the logical string:
    without a selection no code point is painted; with one, a code point is
    painted exactly when its offset lies between the smaller and the larger
    of the two selection ends, whichever is the caret, and on a line that
    contains the whole selection the number of painted code points is the
    distance between the two ends. *)
Theorem selection_highlight
        (selection_count caret_start_idx caret_insert_idx : Z)
        (edit_text_offset range_start : Z) (n : nat) :
  let range := caret_selection_range selection_count caret_start_idx caret_insert_idx in
  (selection_count <= 0 ->
   forall cp_idx, cell_selected range edit_text_offset cp_idx = false)
  /\ (0 < selection_count ->
      forall cp_idx,
        cell_selected range edit_text_offset cp_idx = true
        <-> Z.min caret_start_idx caret_insert_idx <= edit_text_offset + cp_idx
            < Z.max caret_start_idx caret_insert_idx)
  /\ range = caret_selection_range selection_count caret_insert_idx caret_start_idx
  /\ (0 < selection_count ->
      edit_text_offset + range_start <= Z.min caret_start_idx caret_insert_idx ->
      Z.max caret_start_idx caret_insert_idx <= edit_text_offset + range_start + Z.of_nat n ->
      Z.of_nat (List.length (selected_cells range edit_text_offset range_start n))
      = Z.abs (caret_start_idx - caret_insert_idx)).
Proof.
  intros range. subst range. unfold caret_selection_range.
  split; [|split; [|split]].
  - intros Hc cp_idx. destruct (Z.ltb_spec 0 selection_count); [lia|].
    unfold cell_selected. cbn [fst snd].
    destruct (Z.leb_spec (-1) (edit_text_offset + cp_idx));
      destruct (Z.ltb_spec (cp_idx + edit_text_offset) (-1)); try reflexivity; lia.
  - intros Hc cp_idx. destruct (Z.ltb_spec 0 selection_count); [|lia].
    apply cell_selected_iff.
  - destruct (0 <? selection_count); [|reflexivity].
    rewrite Z.min_comm, Z.max_comm. reflexivity.
  - intros Hc Hlo Hhi. destruct (Z.ltb_spec 0 selection_count); [|lia].
    rewrite selected_cells_length. lia.
Qed.

(** ** Runs of the further properties on the concrete states *)

Local Open Scope string_scope.

Lemma X1_witness :
  forallb (fun ev => negb (is_key_down_event ev)) demo_quiet_events = true
  /\ allow_char (ctx demo_gate_closed_state) = false
  /\ allow_char (ctx (run_events demo_quiet_events demo_gate_closed_state)) = false.
Proof.
  split; [reflexivity|split; [reflexivity|]].
  exact (gate_changes_only_on_key_down demo_quiet_events demo_gate_closed_state eq_refl).
Defined.

Lemma X2_witness :
  allow_char (ctx demo_gate_closed_state) = false
  /\ forallb (fun ev => negb (is_key_down_event ev)) demo_quiet_events = true
  /\ run_events demo_quiet_events demo_gate_closed_state
     = run_events [ key_event GLFW_KEY_A GLFW_RELEASE GLFW_MOD_CONTROL;
                    mouse_move_event (B32.of_Z 1) (B32.of_Z 2);
                    ime_event IME_EVENT_CANCEL [] 0 ]
                  demo_gate_closed_state.
Proof.
  split; [reflexivity|split; [reflexivity|]].
  exact (closed_gate_drops_every_char demo_quiet_events demo_gate_closed_state
                                      eq_refl eq_refl).
Defined.

Lemma X3_witness :
  is_key_event (F := spec_float) (ime_event IME_EVENT_COMMIT [99] 0) = false
  /\ clipboard (exec (on_event (ime_event IME_EVENT_COMMIT [99] 0)) demo_state)
     = Some "clip".
Proof.
  split; [reflexivity|].
  destruct (handlers_frame (ime_event IME_EVENT_COMMIT [99] 0) demo_state)
    as (_ & Hclip & _).
  exact (Hclip eq_refl).
Defined.

Lemma X4_witness :
  Z.land 2 (Z.lor GLFW_MOD_SHIFT GLFW_MOD_CONTROL)
  = Z.land 14 (Z.lor GLFW_MOD_SHIFT GLFW_MOD_CONTROL)
  /\ exec (testbed_on_key GLFW_KEY_V GLFW_REPEAT 2) demo_state
     = exec (testbed_on_key GLFW_KEY_V GLFW_REPEAT 14) demo_state.
Proof.
  split; [reflexivity|].
  destruct (only_shift_and_control_matter demo_state 2 14 eq_refl) as [Hkey _].
  apply Hkey.
Defined.

Lemma X5_witness :
  In (GLFW_KEY_LEFT, SKB_KEY_LEFT) editing_keys
  /\ is_key_down GLFW_PRESS = true
  /\ RefEditor.selection
       (editor (ctx (exec (testbed_on_key GLFW_KEY_LEFT GLFW_PRESS 0) demo_state)))
     = RefEditor.collapsed (RefEditor.caret_at 0 SKB_AFFINITY_TRAILING).
Proof.
  assert (Hin : In (GLFW_KEY_LEFT, SKB_KEY_LEFT) editing_keys) by (left; reflexivity).
  split; [exact Hin|split; [reflexivity|]].
  destruct (key_event_issues_one_command demo_state GLFW_KEY_LEFT GLFW_PRESS 0)
    as (_ & Hkeys & _).
  rewrite (Hkeys SKB_KEY_LEFT Hin eq_refl). reflexivity.
Defined.

Lemma X7_witness :
  In GLFW_KEY_F8 [GLFW_KEY_F7; GLFW_KEY_F8; GLFW_KEY_F9]
  /\ show_caret_details
       (ctx (exec (testbed_on_key GLFW_KEY_F8 GLFW_PRESS 0)
                  (exec (testbed_on_key GLFW_KEY_F8 GLFW_PRESS 0) demo_state)))
     = true.
Proof.
  assert (Hin : In GLFW_KEY_F8 [GLFW_KEY_F7; GLFW_KEY_F8; GLFW_KEY_F9])
    by (right; left; reflexivity).
  split; [exact Hin|].
  destruct (detail_keys_toggle demo_state 0) as (_ & _ & _ & Hall).
  destruct (Hall GLFW_KEY_F8 Hin) as [Htwice _].
  exact (f_equal (fun t : bool * bool * bool => snd (fst t)) Htwice).
Defined.

Lemma X8_witness :
  drag_text (ctx demo_state) = false
  /\ drag_text (ctx demo_both_drags_state) = true
  /\ RefEditor.selection
       (editor (ctx (exec (testbed_on_mouse_button
                             (B32.of_Z 0) (B32.of_Z 419) (B32.of_Z 130)
                             GLFW_MOUSE_BUTTON_LEFT GLFW_PRESS 0)
                          demo_state)))
     = RefEditor.collapsed (RefEditor.caret_at 2 SKB_AFFINITY_TRAILING)
  /\ ctx (exec (testbed_on_mouse_button
                  (B32.of_Z 0) (B32.of_Z 419) (B32.of_Z 130)
                  GLFW_MOUSE_BUTTON_LEFT GLFW_PRESS 0)
               demo_both_drags_state)
     = ctx demo_both_drags_state.
Proof.
  split; [reflexivity|split; [reflexivity|split]].
  - destruct (left_press_starts_one_selection
                demo_state (B32.of_Z 0) (B32.of_Z 419) (B32.of_Z 130) 0)
      as [Hstart _].
    destruct (Hstart eq_refl) as [Hclick _].
    rewrite Hclick. vm_compute. reflexivity.
  - destruct (left_press_starts_one_selection
                demo_both_drags_state (B32.of_Z 0) (B32.of_Z 419) (B32.of_Z 130) 0)
      as [_ Hagain].
    destruct (Hagain eq_refl) as [Hctx _]. exact Hctx.
Defined.

Lemma X9_witness :
  (2 <> GLFW_MOUSE_BUTTON_LEFT /\ 2 <> GLFW_MOUSE_BUTTON_RIGHT)
  /\ ctx (exec (testbed_on_mouse_button (B32.of_Z 0) (B32.of_Z 410) (B32.of_Z 130)
                                        2 GLFW_PRESS 0)
               demo_state)
     = ctx demo_state.
Proof.
  assert (H : 2 <> GLFW_MOUSE_BUTTON_LEFT /\ 2 <> GLFW_MOUSE_BUTTON_RIGHT)
    by (split; discriminate).
  split; [exact H|].
  rewrite (unbound_button_only_publishes
             demo_state (B32.of_Z 0) (B32.of_Z 410) (B32.of_Z 130) 2 GLFW_PRESS 0
             (or_introl H)).
  reflexivity.
Defined.

Lemma X10_witness :
  drag_view (ctx demo_state) = false
  /\ drag_text (ctx demo_state) = false
  /\ exec (testbed_on_mouse_move (B32.of_Z 500) (B32.of_Z 200)) demo_state = demo_state.
Proof.
  split; [reflexivity|split; [reflexivity|]].
  destruct (mouse_move_follows_drags demo_state (B32.of_Z 500) (B32.of_Z 200))
    as [Hidle _].
  exact (Hidle eq_refl eq_refl).
Defined.

Lemma X11_witness :
  atlas_scale (ctx demo_state) = float_of_int 0
  /\ map (fun n => atlas_scale (ctx (f10_presses n 0 demo_state))) [1; 2; 3; 4; 5]%nat
     = [float_of_decimal 25 100; float_of_decimal 50 100; float_of_decimal 75 100;
        float_of_int 1; float_of_int 0].
Proof.
  split; [reflexivity|].
  destruct (atlas_scale_cycles demo_state 0) as [_ Hcycle].
  exact (Hcycle eq_refl).
Defined.

Lemma X12_witness :
  scale (view (ctx demo_zero_scale_state)) = S754_zero false
  /\ B32.trunc (vec_x (transform_mouse_pos (ctx demo_zero_scale_state)
                                          (B32.of_Z 500) (B32.of_Z 200)))
     = None.
Proof.
  assert (Hs : scale (view (ctx demo_zero_scale_state)) = S754_zero false)
    by (vm_compute; reflexivity).
  split; [exact Hs|].
  destruct (zero_scale_has_no_text_point (ctx demo_zero_scale_state)
                                         (B32.of_Z 500) (B32.of_Z 200) false Hs)
    as [Hx _].
  exact Hx.
Defined.

Lemma X13_witness :
  testbed_fonts
  = (firstn 2 testbed_fonts
     ++ ("data/IBMPlexSansJP-Regular.ttf", SKB_FONT_FAMILY_DEFAULT)
        :: skipn 3 testbed_fonts)%list
  /\ forallb (fun pf => demo_fonts_without_jp (fst pf)) (firstn 2 testbed_fonts) = true
  /\ demo_fonts_without_jp "data/IBMPlexSansJP-Regular.ttf" = false
  /\ fonts_tried (snd (testbed_create (F := spec_float) demo_fonts_without_jp
                                      demo_new_editor demo_set_text None))
     = ["data/IBMPlexSans-Regular.ttf"; "data/IBMPlexSansArabic-Regular.ttf";
        "data/IBMPlexSansJP-Regular.ttf"].
Proof.
  split; [reflexivity|split; [reflexivity|split; [reflexivity|]]].
  destruct (create_stops_at_first_missing_font
              (F := spec_float) demo_fonts_without_jp demo_new_editor demo_set_text None
              (firstn 2 testbed_fonts) (skipn 3 testbed_fonts)
              "data/IBMPlexSansJP-Regular.ttf" SKB_FONT_FAMILY_DEFAULT
              eq_refl eq_refl eq_refl)
    as (_ & Htried & _).
  exact Htried.
Defined.

Lemma X14_witness :
  forallb (fun pf => demo_fonts_complete (fst pf)) testbed_fonts = true
  /\ exists s,
      fst (testbed_create (F := spec_float) demo_fonts_complete
                          demo_new_editor demo_set_text None) = Some s
      /\ publishes (calls s)
         = [{| rect_x := 400; rect_y := 120; rect_width := 0; rect_height := 20 |}].
Proof.
  split; [reflexivity|].
  destruct (create_succeeds_when_fonts_load
              (F := spec_float) demo_fonts_complete demo_new_editor demo_set_text None
              eq_refl)
    as (s & Hs & Hctx & _ & Hcalls & _).
  exists s. split; [exact Hs|].
  rewrite Hcalls, Hctx. vm_compute. reflexivity.
Defined.

Lemma X16_witness :
  draw_caret_details demo_is_rtl (B32.of_Z 0) (B32.of_Z 0) (B32.of_Z 100) false
                     [demo_bidi_boundary; demo_next_boundary]
  = [].
Proof.
  destruct (caret_details_counts demo_is_rtl (B32.of_Z 0) (B32.of_Z 0) (B32.of_Z 100)
                                 false [demo_bidi_boundary; demo_next_boundary])
    as [Hoff _].
  exact (Hoff eq_refl).
Defined.

Lemma X17_witness :
  0 < 3
  /\ 0 + 0 <= Z.min 5 2
  /\ Z.max 5 2 <= 0 + 0 + Z.of_nat 8
  /\ Z.of_nat (List.length (selected_cells (caret_selection_range 3 5 2) 0 0 8)) = 3.
Proof.
  assert (H0 : 0 < 3) by lia.
  assert (Hlo : 0 + 0 <= Z.min 5 2) by (cbn; lia).
  assert (Hhi : Z.max 5 2 <= 0 + 0 + Z.of_nat 8) by (cbn; lia).
  split; [exact H0|split; [exact Hlo|split; [exact Hhi|]]].
  destruct (selection_highlight 3 5 2 0 0 8) as (_ & _ & _ & Hlen).
  exact (Hlen H0 Hlo Hhi).
Defined.
